(** * Insight: a YouTube summariser (main.py)

    A shallow embedding of [main.py] and the properties of its caption
    filter and of the orchestration in [get_video_summary].

    Python [str] values are sequences of Unicode code points; they are
    modelled as lists of code points, so that [str.strip], which removes
    Unicode whitespace, and the private-use icons of the program are
    rendered as they are. *)

From Stdlib Require Import Decimal.
From Stdlib Require Floats.SpecFloat.
From Stdlib Require Import NArith ZArith Lia String Ascii Bool List.
Import ListNotations.

(** ** Python strings *)

Module PyStr.

Definition char := N.
Definition str := list char.

(** An ASCII literal of the source as a [str]. *)
Definition lit (s : string) : str :=
  List.map N_of_ascii (list_ascii_of_string s).

Definition NL : char := 10%N.
Definition SP : char := 32%N.

(** [str.isspace] on one code point: the table of CPython's
    [_PyUnicode_IsWhitespace]. *)
Definition isspace (c : char) : bool :=
  (((9 <=? c) && (c <=? 13)) || ((28 <=? c) && (c <=? 32))
   || (c =? 133) || (c =? 160) || (c =? 5760)
   || ((8192 <=? c) && (c <=? 8202))
   || (c =? 8232) || (c =? 8233) || (c =? 8239) || (c =? 8287)
   || (c =? 12288))%N.

(** [s.lstrip()], [s.rstrip()], [s.strip()]. *)
Fixpoint lstrip (s : str) : str :=
  match s with
  | [] => []
  | c :: s' => if isspace c then lstrip s' else s
  end.

Definition rstrip (s : str) : str := rev (lstrip (rev s)).

Definition strip (s : str) : str := rstrip (lstrip s).

(** [s.split(sep)] for a separator of one character: the pieces between
    the occurrences of [sep]; never the empty list. *)
Fixpoint split (sep : char) (s : str) : list str :=
  match s with
  | [] => [[]]
  | c :: s' =>
      if (c =? sep)%N then [] :: split sep s'
      else match split sep s' with
           | l :: ls => (c :: l) :: ls
           | [] => [[c]]
           end
  end.

(** [sep.join(parts)]. *)
Fixpoint join (sep : str) (parts : list str) : str :=
  match parts with
  | [] => []
  | [p] => p
  | p :: ps => p ++ sep ++ join sep ps
  end.

(** [s.replace(a, b)] for one-character [a] and [b]. *)
Definition replace (a b : char) (s : str) : str :=
  List.map (fun c => if (c =? a)%N then b else c) s.

(** [s.startswith(p)] and the substring test [p in s]. *)
Fixpoint startswith (p s : str) : bool :=
  match p, s with
  | [], _ => true
  | _ :: _, [] => false
  | a :: p', b :: s' => (a =? b)%N && startswith p' s'
  end.

Fixpoint contains (p s : str) : bool :=
  startswith p s ||
  match s with
  | [] => false
  | _ :: s' => contains p s'
  end.

(** [s.splitlines()]: the line boundaries of [str.splitlines], a carriage
    return followed by a line feed counting as one; no last empty line. *)
Definition islinebreak (c : char) : bool :=
  (((10 <=? c) && (c <=? 13)) || ((28 <=? c) && (c <=? 30))
   || (c =? 133) || (c =? 8232) || (c =? 8233))%N.

Fixpoint splitlines_from (cur : str) (s : str) : list str :=
  match s with
  | [] => match cur with [] => [] | _ => [rev cur] end
  | c :: s' =>
      if islinebreak c then
        match s' with
        | d :: s'' =>
            if ((c =? 13) && (d =? 10))%N
            then rev cur :: splitlines_from [] s''
            else rev cur :: splitlines_from [] s'
        | [] => [rev cur]
        end
      else splitlines_from (c :: cur) s'
  end.

Definition splitlines (s : str) : list str := splitlines_from [] s.

(** [enumerate(l)], with the indices as Python integers. *)
Fixpoint enumerate_from {A : Type} (i : Z) (l : list A) : list (Z * A) :=
  match l with
  | [] => []
  | x :: l' => (i, x) :: enumerate_from (i + 1) l'
  end.

Definition enumerate {A : Type} (l : list A) : list (Z * A) :=
  enumerate_from 0 l.

(** [format(n)] of a Python [int]: the decimal digits, with a minus sign
    for a negative number. *)
Fixpoint str_of_uint (u : Decimal.uint) : str :=
  match u with
  | Nil => []
  | D0 u' => 48%N :: str_of_uint u'
  | D1 u' => 49%N :: str_of_uint u'
  | D2 u' => 50%N :: str_of_uint u'
  | D3 u' => 51%N :: str_of_uint u'
  | D4 u' => 52%N :: str_of_uint u'
  | D5 u' => 53%N :: str_of_uint u'
  | D6 u' => 54%N :: str_of_uint u'
  | D7 u' => 55%N :: str_of_uint u'
  | D8 u' => 56%N :: str_of_uint u'
  | D9 u' => 57%N :: str_of_uint u'
  end.

Definition str_of_int (z : Z) : str :=
  match Z.to_int z with
  | Pos u => str_of_uint u
  | Neg u => 45%N :: str_of_uint u
  end.

End PyStr.
Import PyStr.

(** ** The caption filter *)

(** [filter_captions(captions)]: the lines of the stripped text whose
    0-based index [i] satisfies [(i - 1) % 3 == 0], joined by one space.
    Python's [%] rounds to the floor, as [Z.modulo] does. *)
Definition filter_captions (captions : str) : str :=
  let lines := split NL (strip captions) in
  let text_lines :=
    List.map snd
      (List.filter (fun il => ((fst il - 1) mod 3 =? 0)%Z) (enumerate lines)) in
  join (lit " ") text_lines.

(** ** Constants of the module *)

Definition ESC : char := 27%N.

Definition COLOR_RESET : str := ESC :: lit "[0m".
Definition COLOR_RED : str := ESC :: lit "[31m".
Definition COLOR_GREEN : str := ESC :: lit "[32m".
Definition COLOR_YELLOW : str := ESC :: lit "[33m".
Definition COLOR_BLUE : str := ESC :: lit "[34m".
Definition COLOR_MAGENTA : str := ESC :: lit "[35m".
Definition COLOR_CYAN : str := ESC :: lit "[36m".
Definition COLOR_WHITE : str := ESC :: lit "[37m".
Definition COLOR_BOLD : str := ESC :: lit "[1m".

Definition ICON_INFO : str := [0xF05A%N].
Definition ICON_DOWNLOAD : str := [0xF019%N].
Definition ICON_FILTER : str := [0xF0B0%N].
Definition ICON_OPENAI : str := [0xEE9C%N].
Definition ICON_CHECK : str := [0xF00C%N].
Definition ICON_ERROR : str := [0xF00D%N].
Definition ICON_VIDEO : str := [0xF03D%N].
Definition ICON_CLIPBOARD : str := [0xF0EA%N].

(** ** The prompt builder *)

Definition generate_standart_prompt (video_title filtered_captions : str) : str :=
  lit "Please summarize the following video script in a few sentences. The name of the YouTube Video is "
  ++ video_title ++ lit ". "
  ++ lit "Filter out only the information and do not include any possible sponsored segments. "
  ++ lit "ABSOLUTELY NEVER use phrases like 'the video explains', or 'the script argues', or 'the video discusses', "
  ++ lit "instead just focus on the raw information, as if you were asked to explain the topic to someone without sounding like you learnt it in a YouTube video. "
  ++ lit "Lastly again, completely ignore anything that seems like a sponsorship or a sponsored segment, or anything where someone directly talks about a product. "
  ++ lit "Don't leave out any facts in the video. Simply lay out the explained information for easy digestion. "
  ++ lit "Here is the related video script:" ++ [NL; NL] ++ filtered_captions
  ++ [NL; NL] ++ lit "Summary:".

Definition generate_bulletpoint_prompt (video_title filtered_captions : str) : str :=
  lit "Please summarize the following video script in concise bullet points using markdown syntax. The name of the YouTube Video is "
  ++ video_title ++ lit ". "
  ++ lit "Filter out only the information and do not include any possible sponsored segments. "
  ++ lit "ABSOLUTELY NEVER use phrases like 'the video explains', or 'the script argues', or 'the video discusses', "
  ++ lit "instead just focus on the raw information, as if you were asked to explain the topic to someone without sounding like you learnt it in a YouTube video. "
  ++ lit "Lastly again, completely ignore anything that seems like a sponsorship or a sponsored segment, or anything where someone directly talks about a product. "
  ++ lit "Don't leave out any facts in the video. Simply lay out the explained information in bullet points for easy digestion and markdown formatting. "
  ++ lit "Here is the related video script:" ++ [NL; NL] ++ filtered_captions
  ++ [NL; NL] ++ lit "Summary in bullet points and markdown syntax:".

(** ** Numbers of a transcript

    The [start] and [duration] of a transcript entry are Python numbers;
    the program only adds them and formats them in an f-string.  The
    formatted text of a Python number holds no line feed. *)

Class TimeModel := {
  time : Type;
  time_add : time -> time -> time;
  time_format : time -> str;
  time_format_no_newline : forall t, ~ In NL (time_format t)
}.

(** ** Python values and exceptions *)

(** What an expression or a call does: it returns a value or raises an
    exception, named by its class. *)
Inductive PyResult (A : Type) :=
| Returns (a : A)
| Raises (exception : str).
Arguments Returns {A} a.
Arguments Raises {A} exception.

Fixpoint str_eqb (a b : str) : bool :=
  match a, b with
  | [], [] => true
  | x :: a', y :: b' => (x =? y)%N && str_eqb a' b'
  | _, _ => false
  end.

(** The values that [json.loads] returns; a dict is the list of its
    items. *)
Unset Elimination Schemes.
Inductive PyValue :=
| PyNone
| PyBool (b : bool)
| PyInt (n : Z)
| PyFloat (x : SpecFloat.spec_float)
| PyStr (s : str)
| PyList (elements : list PyValue)
| PyDict (items : list (str * PyValue)).
Set Elimination Schemes.

(** [bool(v)], which [if not v] tests. *)
Definition truthy (v : PyValue) : bool :=
  match v with
  | PyNone => false
  | PyBool b => b
  | PyInt n => negb (n =? 0)%Z
  | PyFloat (SpecFloat.S754_zero _) => false
  | PyFloat _ => true
  | PyStr [] => false
  | PyStr _ => true
  | PyList [] => false
  | PyList _ => true
  | PyDict [] => false
  | PyDict _ => true
  end.

Fixpoint dict_get (key : str) (items : list (str * PyValue)) : option PyValue :=
  match items with
  | [] => None
  | (k, v) :: items' => if str_eqb k key then Some v else dict_get key items'
  end.

(** [v[key]] for a string [key]: the value under [key] in a dict,
    [KeyError] when the dict has no such key, [TypeError] for a value of
    any other type. *)
Definition subscript (v : PyValue) (key : str) : PyResult PyValue :=
  match v with
  | PyDict items =>
      match dict_get key items with
      | Some x => Returns x
      | None => Raises (lit "KeyError")
      end
  | _ => Raises (lit "TypeError")
  end.

(** The text that an f-string writes for [v]; [repr] is the
    interpreter's [repr] of floats, lists and dicts. *)
Definition format_value (repr : PyValue -> str) (v : PyValue) : str :=
  match v with
  | PyStr s => s
  | PyNone => lit "None"
  | PyBool true => lit "True"
  | PyBool false => lit "False"
  | PyInt n => str_of_int n
  | _ => repr v
  end.

(** ** Collaborators, observable events and the global state *)

(** The functions of the module, for the log of calls. *)
Inductive Fn :=
| Fn_get_video_info
| Fn_download_captions
| Fn_filter_captions
| Fn_fetch_gpt3_response
| Fn_generate_standart_prompt
| Fn_generate_bulletpoint_prompt.

Definition Fn_eqb (f g : Fn) : bool :=
  match f, g with
  | Fn_get_video_info, Fn_get_video_info
  | Fn_download_captions, Fn_download_captions
  | Fn_filter_captions, Fn_filter_captions
  | Fn_fetch_gpt3_response, Fn_fetch_gpt3_response
  | Fn_generate_standart_prompt, Fn_generate_standart_prompt
  | Fn_generate_bulletpoint_prompt, Fn_generate_bulletpoint_prompt => true
  | _, _ => false
  end.

(** What a run does to the outside, in order.  [Call] is a ghost event,
    recorded where a function of the module is invoked, with its
    arguments; the others are the effects of the source: [print], the
    [yt-dlp] subprocess, the transcript request, the chat completion
    request and a copy to the clipboard that succeeded. *)
Inductive Event :=
| Call (f : Fn) (args : list PyValue)
| Stdout (s : str)
| SubprocessRun (command : list str)
| GetTranscript (video_id : PyValue) (languages : list str)
| ChatCompletionsCreate (model : str) (messages : list (str * str))
    (max_tokens : Z)
| PyperclipCopy (s : str).

(** The values that [get_video_summary] reads under the keys [title] and
    [id] of the video's info. *)
Record VideoInfo := { vi_title : PyValue; vi_id : PyValue }.

(** Lines 52 to 54 of [get_video_info]: the subprocess and [json.loads],
    which returns whatever JSON value [yt-dlp] printed. *)
Inductive YtDlpOutcome :=
| YtJson (video_info : PyValue)
| YtCalledProcessError (returncode : Z) (stderr : str)
| YtJSONDecodeError (e : str) (stdout : str)
| YtException (e : str).

(** The [try] body of [fetch_gpt3_response] up to the message content:
    the content, or the text of the exception raised. *)
Inductive CompletionOutcome :=
| CompletionContent (content : str)
| CompletionException (e : str).

(** The module-level variables that a run reads or writes. *)
Record Globals := { title : PyValue }.

Definition initial_globals : Globals := {| title := PyStr [] |}.

(** A computation reads and writes the globals and emits events. *)
Definition M (A : Type) : Type := Globals -> A * Globals * list Event.

Definition ret {A : Type} (a : A) : M A := fun g => (a, g, []).

Definition bind {A B : Type} (m : M A) (k : A -> M B) : M B :=
  fun g =>
    let '(a, g1, ev1) := m g in
    let '(b, g2, ev2) := k a g1 in
    (b, g2, ev1 ++ ev2).

Declare Scope py_scope.
Delimit Scope py_scope with py.
Notation "x <- m ;; k" := (bind m (fun x => k))
  (at level 61, m at next level, right associativity) : py_scope.
Notation "m ;; k" := (bind m (fun _ => k))
  (at level 61, right associativity) : py_scope.

(** A step that may raise: the exception ends the computation. *)
Definition try_bind {A B : Type} (m : M (PyResult A))
    (k : A -> M (PyResult B)) : M (PyResult B) :=
  bind m (fun r => match r with
                   | Returns a => k a
                   | Raises e => ret (Raises e)
                   end).

Notation "x <-! m ;; k" := (try_bind m (fun x => k))
  (at level 61, m at next level, right associativity) : py_scope.
Open Scope py_scope.

Definition emit (e : Event) : M unit := fun g => (tt, g, [e]).
Definition print (s : str) : M unit := emit (Stdout s).
Definition get_title : M PyValue := fun g => (title g, g, []).
Definition set_title (t : PyValue) : M unit :=
  fun _ => (tt, {| title := t |}, []).

Fixpoint for_each {A : Type} (l : list A) (body : A -> M unit) : M unit :=
  match l with
  | [] => ret tt
  | x :: l' => body x ;; for_each l' body
  end.

Definition result {A : Type} (r : A * Globals * list Event) : A := fst (fst r).
Definition globals_after {A : Type} (r : A * Globals * list Event) : Globals :=
  snd (fst r).
Definition events {A : Type} (r : A * Globals * list Event) : list Event :=
  snd r.

(** [called f evs]: the log holds a call of [f]. *)
Definition called (f : Fn) (evs : list Event) : bool :=
  existsb (fun e => match e with Call f' _ => Fn_eqb f f' | _ => false end) evs.

(** ** The pipeline *)

Section Pipeline.

Context {TM : TimeModel}.

(** An entry of the transcript returned by [YouTubeTranscriptApi]. *)
Record Entry := { e_start : time; e_duration : time; e_text : str }.

(** [YouTubeTranscriptApi.get_transcript] and the loop after it: the
    transcript, or the text of the exception raised. *)
Inductive TranscriptOutcome :=
| TranscriptEntries (transcript : list Entry)
| TranscriptException (e : str).

(** The outside of the program during one run.  [pyperclip_copy] tells
    whether [pyperclip.copy] succeeds or raises [PyperclipException];
    [str_capitalize] is [str.capitalize], which needs Unicode's case
    tables; [py_repr] is [repr] on floats, lists and dicts. *)
Record World := {
  yt_dlp : str -> YtDlpOutcome;
  get_transcript : PyValue -> list str -> TranscriptOutcome;
  chat_completions_create : str -> list (str * str) -> Z -> CompletionOutcome;
  CLIPBOARD_AVAILABLE : bool;
  pyperclip_copy : str -> bool;
  str_capitalize : str -> str;
  py_repr : PyValue -> str
}.

Variable w : World.

Definition get_video_info (url : str) : M PyValue :=
  emit (Call Fn_get_video_info [PyStr url]) ;;
  let command := [lit "yt-dlp"; lit "--skip-download"; lit "--print-json"; url] in
  emit (SubprocessRun command) ;;
  match yt_dlp w url with
  | YtJson video_info => ret video_info
  | YtCalledProcessError returncode stderr =>
      print (COLOR_RED ++ ICON_ERROR
             ++ lit " Error getting video info: yt-dlp returned "
             ++ str_of_int returncode ++ COLOR_RESET) ;;
      print (COLOR_RED ++ lit "yt-dlp output:" ++ [NL] ++ stderr ++ COLOR_RESET) ;;
      ret PyNone
  | YtJSONDecodeError e stdout =>
      print (COLOR_RED ++ ICON_ERROR ++ lit " Error parsing yt-dlp output: "
             ++ e ++ COLOR_RESET) ;;
      print (COLOR_RED ++ lit "yt-dlp output:" ++ [NL] ++ stdout ++ COLOR_RESET) ;;
      ret PyNone
  | YtException e =>
      print (COLOR_RED ++ ICON_ERROR ++ lit " An unexpected error occurred: "
             ++ e ++ COLOR_RESET) ;;
      ret PyNone
  end.

(** The three lines that [download_captions] appends for one entry. *)
Definition srt_block (entry : Entry) : str :=
  let start_time := e_start entry in
  let duration := e_duration entry in
  let end_time := time_add start_time duration in
  let text := replace NL SP (e_text entry) in
  time_format start_time ++ lit " --> " ++ time_format end_time ++ [NL]
  ++ text ++ [NL] ++ [NL].

(** The loop of [download_captions]: [srt_captions += ...] per entry. *)
Definition srt_of_transcript (transcript : list Entry) : str :=
  fold_left (fun srt_captions entry => srt_captions ++ srt_block entry)
    transcript [].

Definition download_captions (video_id : PyValue) (lang_code : str) : M str :=
  emit (Call Fn_download_captions [video_id; PyStr lang_code]) ;;
  emit (GetTranscript video_id [lang_code]) ;;
  match get_transcript w video_id [lang_code] with
  | TranscriptEntries transcript => ret (srt_of_transcript transcript)
  | TranscriptException e =>
      ret (COLOR_RED ++ ICON_ERROR ++ lit " An error occurred: " ++ e
           ++ COLOR_RESET)
  end.

Definition default_max_tokens : Z := 4069.

Definition chat_model : str := lit "chatgpt-4o-latest".

Definition chat_messages (prompt : str) : list (str * str) :=
  [(lit "system",
    lit "You are a helpful assistant whose job is to explain a shortened version of information to the user.");
   (lit "user", prompt)].

(** [fetch_gpt3_response(prompt, max_tokens=4069)]; [None] for
    [max_tokens] is a call that leaves the argument out. *)
Definition fetch_gpt3_response (prompt : str) (max_tokens : option Z) : M str :=
  emit (Call Fn_fetch_gpt3_response [PyStr prompt]) ;;
  let max_tokens :=
    match max_tokens with Some n => n | None => default_max_tokens end in
  emit (ChatCompletionsCreate chat_model (chat_messages prompt) max_tokens) ;;
  match chat_completions_create w chat_model (chat_messages prompt) max_tokens with
  | CompletionContent content => ret (strip content)
  | CompletionException e =>
      ret (COLOR_RED ++ ICON_ERROR ++ lit " Error fetching GPT-3 response: "
           ++ e ++ COLOR_RESET)
  end.

(** The rendering of the summary at the end of [get_video_summary];
    [pyperclip.copy] is called outside any [try]. *)
Definition present (mode response : str) (copy_to_clipboard : bool)
  : M (PyResult unit) :=
  let separator := COLOR_CYAN ++ repeat 45%N 50 ++ COLOR_RESET in
  print (NL :: separator) ;;
  print (COLOR_GREEN ++ ICON_CHECK ++ lit " " ++ COLOR_BOLD ++ lit "Summary ("
         ++ str_capitalize w mode ++ lit " Mode):" ++ COLOR_RESET ++ [NL]) ;;
  (if str_eqb mode (lit "bulletpoint") then
     let bullet_lines := splitlines response in
     for_each bullet_lines (fun line => print (lit "  " ++ line))
   else
     print (response ++ [NL])) ;;
  print (separator ++ [NL]) ;;
  (if copy_to_clipboard then
     if CLIPBOARD_AVAILABLE w then
       if pyperclip_copy w response then
         emit (PyperclipCopy response) ;;
         print (COLOR_BLUE ++ ICON_CLIPBOARD ++ lit " Summary copied to clipboard"
                ++ COLOR_RESET) ;;
         ret (Returns tt)
       else
         ret (Raises (lit "PyperclipException"))
     else
       print (COLOR_YELLOW ++ ICON_INFO
              ++ lit " Clipboard copy requested but 'pyperclip' module is not installed."
              ++ COLOR_RESET) ;;
       ret (Returns tt)
   else ret (Returns tt)).

(** The warning printed for a mode that is neither of the two known. *)
Definition unknown_mode_warning (mode : str) : str :=
  COLOR_RED ++ ICON_ERROR ++ lit " Unknown mode selected: " ++ mode
  ++ lit ". Falling back to standart mode." ++ COLOR_RESET.

(** The choice of the prompt in [get_video_summary]; [title] is the
    global variable, and the prompt builders receive the text that their
    f-string writes for it. *)
Definition build_prompt (mode filtered_captions : str) : M str :=
  if str_eqb mode (lit "standart") then
    title <- get_title ;;
    emit (Call Fn_generate_standart_prompt [title; PyStr filtered_captions]) ;;
    ret (generate_standart_prompt (format_value (py_repr w) title)
           filtered_captions)
  else if str_eqb mode (lit "bulletpoint") then
    title <- get_title ;;
    emit (Call Fn_generate_bulletpoint_prompt [title; PyStr filtered_captions]) ;;
    ret (generate_bulletpoint_prompt (format_value (py_repr w) title)
           filtered_captions)
  else
    print (unknown_mode_warning mode) ;;
    title <- get_title ;;
    emit (Call Fn_generate_standart_prompt [title; PyStr filtered_captions]) ;;
    ret (generate_standart_prompt (format_value (py_repr w) title)
           filtered_captions).

(** [get_video_summary(video_url, video_lang, mode, copy_to_clipboard)]:
    it returns [None] or the summary, or raises what the subscripts of
    [video_info] or [pyperclip.copy] raise. *)
Definition get_video_summary (video_url video_lang mode : str)
    (copy_to_clipboard : bool) : M (PyResult (option str)) :=
  print (COLOR_CYAN ++ ICON_VIDEO ++ lit " Processing video: " ++ COLOR_YELLOW
         ++ video_url ++ COLOR_CYAN ++ lit ", "
         ++ lit "Language: " ++ COLOR_YELLOW ++ video_lang ++ COLOR_CYAN
         ++ lit ", Mode: " ++ COLOR_YELLOW ++ mode ++ COLOR_RESET) ;;
  video_info <- get_video_info video_url ;;
  if negb (truthy video_info) then
    ret (Returns None)
  else
    video_title <-! ret (subscript video_info (lit "title")) ;;
    set_title video_title ;;
    video_id <-! ret (subscript video_info (lit "id")) ;;
    print (COLOR_BLUE ++ ICON_DOWNLOAD ++ lit " Downloading Captions..."
           ++ COLOR_RESET) ;;
    captions <- download_captions video_id video_lang ;;
    if contains (lit "Error occurred") captions then
      print (COLOR_RED ++ ICON_ERROR ++ lit " Failed to download captions."
             ++ COLOR_RESET) ;;
      print captions ;;
      ret (Returns None)
    else
      print (COLOR_YELLOW ++ ICON_FILTER ++ lit " Filtering Captions..."
             ++ COLOR_RESET) ;;
      emit (Call Fn_filter_captions [PyStr captions]) ;;
      let filtered_captions := filter_captions captions in
      prompt <- build_prompt mode filtered_captions ;;
      print (COLOR_MAGENTA ++ ICON_OPENAI ++ lit " Fetching OpenAI Response..."
             ++ COLOR_RESET) ;;
      response <- fetch_gpt3_response prompt None ;;
      if contains (lit "Error fetching GPT-3 response") response then
        print (COLOR_RED ++ ICON_ERROR ++ lit " Failed to fetch OpenAI Response."
               ++ COLOR_RESET) ;;
        print response ;;
        ret (Returns None)
      else
        _ <-! present mode response copy_to_clipboard ;;
        ret (Returns (Some response)).

End Pipeline.

(** ** Python integers as transcript numbers *)

Lemma str_of_uint_no_newline (u : Decimal.uint) : ~ In NL (str_of_uint u).
Proof.
  induction u; simpl; intros H;
    try (destruct H as [H | H]; [discriminate H | exact (IHu H)]).
  exact H.
Qed.

Lemma str_of_int_no_newline (z : Z) : ~ In NL (str_of_int z).
Proof.
  unfold str_of_int. destruct (Z.to_int z) as [u | u].
  - apply str_of_uint_no_newline.
  - simpl. intros [H | H]; [discriminate H | exact (str_of_uint_no_newline u H)].
Qed.

(** Transcript numbers that are Python [int]s. *)
Definition IntTime : TimeModel := {|
  time := Z;
  time_add := Z.add;
  time_format := str_of_int;
  time_format_no_newline := str_of_int_no_newline
|}.

(** ** Shapes of caption text, for the statements *)

Definition has_nl (s : str) : bool := existsb (N.eqb NL) s.

Definition has_nonspace (s : str) : bool := existsb (fun c => negb (isspace c)) s.

(** The last character of [s] exists and is not whitespace. *)
Fixpoint ends_nonspace (s : str) : bool :=
  match s with
  | [] => false
  | [c] => negb (isspace c)
  | _ :: s' => ends_nonspace s'
  end.

(** A caption block: its time line and its text line; the third line of a
    block is blank. *)
Definition Block : Type := (str * str)%type.

Definition block_lines (bs : list Block) : list str :=
  flat_map (fun b => [fst b; snd b; []]) bs.

(** A time line holds no line feed and is not blank; a text line holds no
    line feed. *)
Definition time_line (l : str) : bool := negb (has_nl l) && has_nonspace l.

Definition well_formed (bs : list Block) : bool :=
  forallb (fun b => time_line (fst b) && negb (has_nl (snd b))) bs.

(** The text line of the last block, if any, ends in a character that is
    not whitespace. *)
Definition last_text_ends_nonspace (bs : list Block) : bool :=
  match bs with
  | [] => true
  | _ => ends_nonspace (snd (last bs ([], [])))
  end.

(** The lines of the blocks without the blank line that ends them. *)
Fixpoint stripped_lines (bs : list Block) : list str :=
  match bs with
  | [] => []
  | [b] => [fst b; snd b]
  | b :: bs' => fst b :: snd b :: [] :: stripped_lines bs'
  end.

Definition select_from (i : Z) (lines : list str) : list str :=
  List.map snd
    (List.filter (fun il => ((fst il - 1) mod 3 =? 0)%Z) (enumerate_from i lines)).

(** [filter_captions] with the one partial operator of its body, [%],
    made explicit: [a % b] raises [ZeroDivisionError] when [b] is zero. *)
Definition py_mod (a b : Z) : PyResult Z :=
  if (b =? 0)%Z then Raises (lit "ZeroDivisionError") else Returns (a mod b)%Z.

Fixpoint comprehension (ils : list (Z * str)) : PyResult (list str) :=
  match ils with
  | [] => Returns []
  | (i, line) :: ils' =>
      match py_mod (i - 1) 3 with
      | Raises e => Raises e
      | Returns r =>
          match comprehension ils' with
          | Raises e => Raises e
          | Returns ls => Returns (if (r =? 0)%Z then line :: ls else ls)
          end
      end
  end.

Definition filter_captions_checked (captions : str) : PyResult str :=
  let lines := split NL (strip captions) in
  match comprehension (enumerate lines) with
  | Raises e => Raises e
  | Returns text_lines => Returns (join (lit " ") text_lines)
  end.

(** The text of blocks, each line followed by a line feed. *)
Definition render_blocks (bs : list Block) : str :=
  concat (List.map (fun b => fst b ++ [NL] ++ snd b ++ [NL] ++ [NL]) bs).

(** The time line and the text line that [download_captions] writes for
    each entry of a transcript. *)
Definition transcript_blocks {TM : TimeModel} (transcript : list Entry)
  : list Block :=
  List.map
    (fun entry =>
       (time_format (e_start entry) ++ lit " --> "
        ++ time_format (time_add (e_start entry) (e_duration entry)),
        replace NL SP (e_text entry)))
    transcript.

(** The texts of the segments, line feeds replaced by spaces. *)
Definition segment_texts {TM : TimeModel} (transcript : list Entry) : list str :=
  List.map (fun entry => replace NL SP (e_text entry)) transcript.

(** The prompt that [get_video_summary] builds for [mode]. *)
Definition selected_prompt (mode video_title filtered_captions : str) : str :=
  if str_eqb mode (lit "bulletpoint")
  then generate_bulletpoint_prompt video_title filtered_captions
  else generate_standart_prompt video_title filtered_captions.

(** A request to a collaborator that follows the metadata stage. *)
Definition is_request (e : Event) : bool :=
  match e with
  | GetTranscript _ _ | ChatCompletionsCreate _ _ _ => true
  | _ => false
  end.

(** A computation that leaves the globals as they are. *)
Definition preserves_globals {A : Type} (m : M A) : Prop :=
  forall g, globals_after (m g) = g.

(** What the stages return, as functions of the world. *)
Definition video_info_value {TM : TimeModel} (w : World) (url : str) : PyValue :=
  match yt_dlp w url with
  | YtJson video_info => video_info
  | _ => PyNone
  end.

(** The title and the id that [get_video_summary] reads from the value
    returned by [get_video_info]: none when the value is falsy or a
    subscript raises. *)
Definition resolve (video_info : PyValue) : option VideoInfo :=
  if truthy video_info then
    match subscript video_info (lit "title"), subscript video_info (lit "id") with
    | Returns t, Returns i => Some {| vi_title := t; vi_id := i |}
    | _, _ => None
    end
  else None.

Definition metadata {TM : TimeModel} (w : World) (url : str) : option VideoInfo :=
  resolve (video_info_value w url).

Definition captions_text {TM : TimeModel} (w : World) (video_id : PyValue)
    (lang_code : str) : str :=
  match get_transcript w video_id [lang_code] with
  | TranscriptEntries transcript => srt_of_transcript transcript
  | TranscriptException e =>
      COLOR_RED ++ ICON_ERROR ++ lit " An error occurred: " ++ e ++ COLOR_RESET
  end.

Definition response_text {TM : TimeModel} (w : World) (prompt : str)
    (max_tokens : Z) : str :=
  match chat_completions_create w chat_model (chat_messages prompt) max_tokens with
  | CompletionContent content => strip content
  | CompletionException e =>
      COLOR_RED ++ ICON_ERROR ++ lit " Error fetching GPT-3 response: " ++ e
      ++ COLOR_RESET
  end.

(** The caption text and the prompt of a run that resolved [video_info]:
    [download_captions] and the prompt builder run with the global [title]
    already set. *)
Definition captions_of_run {TM : TimeModel} (w : World) (video_info : VideoInfo)
    (video_lang : str) : str :=
  result (download_captions w (vi_id video_info) video_lang
            {| title := vi_title video_info |}).

Definition prompt_of_run {TM : TimeModel} (w : World) (video_info : VideoInfo)
    (video_lang mode : str) : str :=
  result (build_prompt w mode (filter_captions (captions_of_run w video_info video_lang))
            {| title := vi_title video_info |}).

(** The run gets past the metadata and caption stages: the title and the
    id of [video_info] are read from the value that [get_video_info]
    returns, and the caption text is not taken for an error. *)
Definition reaches_prompt_stage {TM : TimeModel} (w : World)
    (video_url video_lang : str) (g : Globals) (video_info : VideoInfo) : Prop :=
  resolve (result (get_video_info w video_url g)) = Some video_info /\
  contains (lit "Error occurred") (captions_of_run w video_info video_lang) = false.

(** What a run returns, and the globals it leaves, when the title and the
    id are not both read from [video_info]. *)
Definition unresolved_outcome (video_info : PyValue) : PyResult (option str) :=
  if truthy video_info then
    match subscript video_info (lit "title") with
    | Raises e => Raises e
    | Returns _ =>
        match subscript video_info (lit "id") with
        | Raises e => Raises e
        | Returns _ => Returns None
        end
    end
  else Returns None.

Definition unresolved_globals (video_info : PyValue) (g : Globals) : Globals :=
  if truthy video_info then
    match subscript video_info (lit "title") with
    | Raises _ => g
    | Returns t => {| title := t |}
    end
  else g.

(** [pyperclip.copy(response)] is called and raises. *)
Definition copy_raises {TM : TimeModel} (w : World) (response : str)
    (copy_to_clipboard : bool) : bool :=
  copy_to_clipboard && CLIPBOARD_AVAILABLE w && negb (pyperclip_copy w response).

(** What a run returns once the completion is fetched. *)
Definition summary_outcome {TM : TimeModel} (w : World) (response : str)
    (copy_to_clipboard : bool) : PyResult (option str) :=
  if contains (lit "Error fetching GPT-3 response") response then Returns None
  else if copy_raises w response copy_to_clipboard
       then Raises (lit "PyperclipException")
       else Returns (Some response).

(** ** Scripted collaborators, for the examples *)

(** [str.capitalize] on ASCII text. *)
Definition upper_ascii (c : char) : char :=
  if ((97 <=? c) && (c <=? 122))%N then (c - 32)%N else c.

Definition lower_ascii (c : char) : char :=
  if ((65 <=? c) && (c <=? 90))%N then (c + 32)%N else c.

Definition capitalize_ascii (s : str) : str :=
  match s with
  | [] => []
  | c :: s' => upper_ascii c :: List.map lower_ascii s'
  end.

(** A world whose collaborators answer every request the same way. *)
Definition scripted_world {TM : TimeModel} (metadata : YtDlpOutcome)
    (captions : TranscriptOutcome) (completion : CompletionOutcome) : World :=
  {| yt_dlp := fun _ => metadata;
     get_transcript := fun _ _ => captions;
     chat_completions_create := fun _ _ _ => completion;
     CLIPBOARD_AVAILABLE := false;
     pyperclip_copy := fun _ => true;
     str_capitalize := capitalize_ascii;
     py_repr := fun _ => lit "..." |}.

Definition int_entry (start duration : Z) (text : str) : @Entry IntTime :=
  {| e_start := start : @time IntTime; e_duration := duration : @time IntTime;
     e_text := text |}.

Definition demo_url : str := lit "https://youtu.be/abc123".

(** What [yt-dlp] prints for the video, and the title and id in it. *)
Definition demo_json : PyValue :=
  PyDict [(lit "id", PyStr (lit "abc123")); (lit "title", PyStr (lit "Demo"));
          (lit "duration", PyInt 5)].

Definition demo_info : VideoInfo :=
  {| vi_title := PyStr (lit "Demo"); vi_id := PyStr (lit "abc123") |}.

Definition demo_transcript : list (@Entry IntTime) :=
  [int_entry 0 2 (lit "Hi there"); int_entry 2 3 (lit "General Kenobi")].

Definition demo_summary : str := lit "A greeting exchange occurs.".

(** The scenario of the specification: the summary is delivered. *)
Definition demo_world : @World IntTime :=
  scripted_world (YtJson demo_json) (TranscriptEntries demo_transcript)
    (CompletionContent demo_summary).

(** The transcript request raises. *)
Definition no_captions_world : @World IntTime :=
  scripted_world (YtJson demo_json)
    (TranscriptException (lit "Subtitles are disabled for this video"))
    (CompletionContent demo_summary).

(** The completion is blank. *)
Definition blank_completion_world : @World IntTime :=
  scripted_world (YtJson demo_json) (TranscriptEntries demo_transcript)
    (CompletionContent (lit "  ")).

(** The completion quotes the error text of [fetch_gpt3_response]. *)
Definition quoting_completion_world : @World IntTime :=
  scripted_world (YtJson demo_json) (TranscriptEntries demo_transcript)
    (CompletionContent
       (lit "The log line 'Error fetching GPT-3 response' marks a failed request.")).

(** The metadata resolver fails. *)
Definition no_metadata_world : @World IntTime :=
  scripted_world (YtCalledProcessError 1 (lit "ERROR: Video unavailable"))
    (TranscriptEntries demo_transcript) (CompletionContent demo_summary).

(** Kinds of events, and how many events of a kind a log holds. *)
Definition is_subprocess (e : Event) : bool :=
  match e with SubprocessRun _ => true | _ => false end.

Definition is_transcript_request (e : Event) : bool :=
  match e with GetTranscript _ _ => true | _ => false end.

Definition is_completion_request (e : Event) : bool :=
  match e with ChatCompletionsCreate _ _ _ => true | _ => false end.

Definition is_clipboard (e : Event) : bool :=
  match e with PyperclipCopy _ => true | _ => false end.

Definition count_events (p : Event -> bool) (evs : list Event) : nat :=
  length (List.filter p evs).

(** A kind of event that is neither a [print] nor a ghost call. *)
Definition outward (p : Event -> bool) : Prop :=
  (forall s, p (Stdout s) = false) /\ (forall f args, p (Call f args) = false).

(** The clipboard receives [s]. *)
Definition copies (s : str) (e : Event) : bool :=
  match e with PyperclipCopy s' => str_eqb s' s | _ => false end.

(** The first character of [s], if any, is not whitespace. *)
Definition starts_nonspace (s : str) : bool :=
  match s with
  | [] => false
  | c :: _ => negb (isspace c)
  end.

(** A fetched transcript whose text is taken for an error. *)
Definition misread_transcript_world : @World IntTime :=
  scripted_world (YtJson demo_json)
    (TranscriptEntries [int_entry 0 2 (lit "Error occurred on stage")])
    (CompletionContent demo_summary).

(** The completion request raises. *)
Definition failing_completion_world : @World IntTime :=
  scripted_world (YtJson demo_json) (TranscriptEntries demo_transcript)
    (CompletionException (lit "Connection error.")).

(** The scenario of the specification with [pyperclip] installed. *)
Definition clipboard_world : @World IntTime :=
  {| yt_dlp := fun _ => YtJson demo_json;
     get_transcript := fun _ _ => TranscriptEntries demo_transcript;
     chat_completions_create := fun _ _ _ => CompletionContent demo_summary;
     CLIPBOARD_AVAILABLE := true;
     pyperclip_copy := fun _ => true;
     str_capitalize := capitalize_ascii;
     py_repr := fun _ => lit "..." |}.

(** The same on a machine without a copy mechanism: [pyperclip.copy]
    raises. *)
Definition headless_world : @World IntTime :=
  {| yt_dlp := fun _ => YtJson demo_json;
     get_transcript := fun _ _ => TranscriptEntries demo_transcript;
     chat_completions_create := fun _ _ _ => CompletionContent demo_summary;
     CLIPBOARD_AVAILABLE := true;
     pyperclip_copy := fun _ => false;
     str_capitalize := capitalize_ascii;
     py_repr := fun _ => lit "..." |}.


(** ** Lemmas on strings *)

Lemma has_nl_app (a b : str) : has_nl (a ++ b) = has_nl a || has_nl b.
Proof. unfold has_nl. apply existsb_app. Qed.

Lemma has_nl_In (s : str) : has_nl s = false <-> ~ In NL s.
Proof.
  unfold has_nl. split.
  - intros H Hin.
    assert (existsb (N.eqb NL) s = true) as E.
    { apply existsb_exists. exists NL. split; [exact Hin | apply N.eqb_refl]. }
    congruence.
  - intros H. destruct (existsb (N.eqb NL) s) eqn:E; [| reflexivity].
    apply existsb_exists in E. destruct E as [x [Hin Hx]].
    apply N.eqb_eq in Hx. subst x. contradiction.
Qed.

Lemma has_nl_cons (c : char) (s : str) :
  has_nl (c :: s) = (c =? NL)%N || has_nl s.
Proof. unfold has_nl. cbn [existsb]. rewrite N.eqb_sym. reflexivity. Qed.

Lemma split_cons_other (c : char) (s : str) :
  (c =? NL)%N = false ->
  split NL (c :: s) =
  match split NL s with l :: ls => (c :: l) :: ls | [] => [[c]] end.
Proof. intros H. cbn [split]. rewrite H. reflexivity. Qed.

Lemma split_cons_nl (s : str) : split NL (NL :: s) = [] :: split NL s.
Proof. reflexivity. Qed.

Lemma split_no_nl (a : str) : has_nl a = false -> split NL a = [a].
Proof.
  induction a as [| c a IH]; intros H; [reflexivity |].
  rewrite has_nl_cons in H. apply orb_false_iff in H. destruct H as [Hc Ha].
  rewrite (split_cons_other _ _ Hc), (IH Ha). reflexivity.
Qed.

Lemma split_app_nl (a rest : str) :
  has_nl a = false -> split NL (a ++ NL :: rest) = a :: split NL rest.
Proof.
  induction a as [| c a IH]; intros H; [apply split_cons_nl |].
  rewrite has_nl_cons in H. apply orb_false_iff in H. destruct H as [Hc Ha].
  rewrite <- app_comm_cons, (split_cons_other _ _ Hc), (IH Ha). reflexivity.
Qed.

Lemma split_join (lines : list str) :
  lines <> [] -> forallb (fun l => negb (has_nl l)) lines = true ->
  split NL (join [NL] lines) = lines.
Proof.
  induction lines as [| l ls IH]; intros Hne H; [contradiction |].
  simpl in H. apply andb_true_iff in H. destruct H as [Hl Hls].
  apply negb_true_iff in Hl.
  destruct ls as [| l' ls'].
  - simpl. apply split_no_nl. exact Hl.
  - change (join [NL] (l :: l' :: ls')) with (l ++ NL :: join [NL] (l' :: ls')).
    rewrite (split_app_nl _ _ Hl). rewrite IH; [reflexivity | discriminate | exact Hls].
Qed.

Lemma lstrip_app (a rest : str) :
  has_nonspace a = true -> lstrip (a ++ rest) = lstrip a ++ rest.
Proof.
  induction a as [| c a IH]; simpl; intros H; [discriminate |].
  destruct (isspace c); simpl in H; [apply IH; exact H | reflexivity].
Qed.

Lemma lstrip_spaces_app (ws rest : str) :
  forallb isspace ws = true -> lstrip (ws ++ rest) = lstrip rest.
Proof.
  induction ws as [| c ws IH]; simpl; intros H; [reflexivity |].
  apply andb_true_iff in H. destruct H as [Hc Hws]. rewrite Hc. apply IH, Hws.
Qed.

Lemma has_nl_lstrip (s : str) : has_nl s = false -> has_nl (lstrip s) = false.
Proof.
  induction s as [| c s IH]; intros H; [reflexivity |].
  pose proof H as H'. rewrite has_nl_cons in H'.
  apply orb_false_iff in H'. destruct H' as [Hc Hs].
  cbn [lstrip]. destruct (isspace c); [apply IH, Hs | exact H].
Qed.

Lemma ends_nonspace_snoc (s : str) :
  ends_nonspace s = true -> exists r c, s = r ++ [c] /\ isspace c = false.
Proof.
  induction s as [| x s IH]; simpl; intros H; [discriminate |].
  destruct s as [| y s'].
  - exists [], x. split; [reflexivity | apply negb_true_iff, H].
  - destruct (IH H) as [r [c [E Hc]]]. exists (x :: r), c.
    rewrite E. split; [reflexivity | exact Hc].
Qed.

Lemma ends_nonspace_app (a b : str) :
  ends_nonspace b = true -> ends_nonspace (a ++ b) = true.
Proof.
  intros H. induction a as [| x a IH]; simpl; [exact H |].
  destruct (a ++ b) eqn:E; [| exact IH].
  destruct a; simpl in E; [subst b; discriminate H | discriminate E].
Qed.

Lemma forallb_isspace_rev (ws : str) :
  forallb isspace ws = true -> forallb isspace (rev ws) = true.
Proof.
  intros H. apply forallb_forall. intros x Hx. apply in_rev in Hx.
  rewrite forallb_forall in H. apply H, Hx.
Qed.

Lemma rstrip_app_spaces (body ws : str) :
  ends_nonspace body = true -> forallb isspace ws = true ->
  rstrip (body ++ ws) = body.
Proof.
  intros Hb Hws. unfold rstrip. rewrite rev_app_distr.
  rewrite (lstrip_spaces_app _ _ (forallb_isspace_rev _ Hws)).
  destruct (ends_nonspace_snoc _ Hb) as [r [c [E Hc]]]. subst body.
  rewrite rev_app_distr. simpl. rewrite Hc.
  change (c :: rev r) with (rev [c] ++ rev r).
  rewrite <- rev_app_distr. apply rev_involutive.
Qed.

Lemma strip_spaces (ws : str) : forallb isspace ws = true -> strip ws = [].
Proof.
  intros H. unfold strip.
  rewrite <- (app_nil_r ws), (lstrip_spaces_app _ _ H). reflexivity.
Qed.

(** ** The caption filter on blocks of three lines *)

Lemma enumerate_select_three (i : Z) (a b c : str) (rest : list str) :
  (i mod 3 = 0)%Z ->
  select_from i (a :: b :: c :: rest) = b :: select_from (i + 1 + 1 + 1) rest.
Proof.
  intros Hi. unfold select_from. cbn [enumerate_from filter map fst snd].
  replace ((i - 1) mod 3 =? 0)%Z with false
    by (symmetry; apply Z.eqb_neq; rewrite Zminus_mod, Hi; discriminate).
  replace ((i + 1 - 1) mod 3 =? 0)%Z with true
    by (symmetry; apply Z.eqb_eq; rewrite Z.add_simpl_r; exact Hi).
  replace ((i + 1 + 1 - 1) mod 3 =? 0)%Z with false
    by (symmetry; apply Z.eqb_neq;
        replace (i + 1 + 1 - 1)%Z with (i + 1)%Z by lia;
        rewrite Zplus_mod, Hi; discriminate).
  reflexivity.
Qed.

Lemma enumerate_select_two (i : Z) (a b : str) :
  (i mod 3 = 0)%Z -> select_from i [a; b] = [b].
Proof.
  intros Hi. unfold select_from. cbn [enumerate_from filter map fst snd].
  replace ((i - 1) mod 3 =? 0)%Z with false
    by (symmetry; apply Z.eqb_neq; rewrite Zminus_mod, Hi; discriminate).
  replace ((i + 1 - 1) mod 3 =? 0)%Z with true
    by (symmetry; apply Z.eqb_eq; rewrite Z.add_simpl_r; exact Hi).
  reflexivity.
Qed.

Lemma select_stripped_lines (bs : list Block) :
  forall i, (i mod 3 = 0)%Z -> select_from i (stripped_lines bs) = List.map snd bs.
Proof.
  induction bs as [| b bs IH]; intros i Hi; [reflexivity |].
  destruct bs as [| b' bs'].
  - apply enumerate_select_two, Hi.
  - change (stripped_lines (b :: b' :: bs'))
      with (fst b :: snd b :: [] :: stripped_lines (b' :: bs')).
    rewrite (enumerate_select_three _ _ _ _ _ Hi), IH; [reflexivity |].
    replace (i + 1 + 1 + 1)%Z with (i + 1 * 3)%Z by lia.
    rewrite Z_mod_plus_full. exact Hi.
Qed.

Lemma stripped_lines_cons (b : Block) (bs : list Block) :
  stripped_lines (b :: bs) =
  fst b :: snd b :: match bs with [] => [] | _ => [] :: stripped_lines bs end.
Proof. destruct bs; reflexivity. Qed.

Lemma join_cons2 (sep a b : str) (rest : list str) :
  join sep (a :: b :: rest) = a ++ sep ++ join sep (b :: rest).
Proof. reflexivity. Qed.

Lemma ends_nonspace_join_stripped (bs : list Block) :
  bs <> [] -> ends_nonspace (snd (last bs ([], []))) = true ->
  ends_nonspace (join [NL] (stripped_lines bs)) = true.
Proof.
  induction bs as [| b bs IH]; intros Hne H; [contradiction |].
  destruct bs as [| b' bs'].
  - cbn [stripped_lines]. rewrite join_cons2. cbn [join].
    apply ends_nonspace_app, ends_nonspace_app. exact H.
  - change (stripped_lines (b :: b' :: bs'))
      with (fst b :: snd b :: [] :: stripped_lines (b' :: bs')).
    rewrite (stripped_lines_cons b' bs'), !join_cons2.
    rewrite <- join_cons2, <- stripped_lines_cons.
    do 6 apply ends_nonspace_app. apply IH; [discriminate | exact H].
Qed.

Lemma stripped_lines_no_nl (bs : list Block) :
  forallb (fun b => negb (has_nl (fst b)) && negb (has_nl (snd b))) bs = true ->
  forallb (fun l => negb (has_nl l)) (stripped_lines bs) = true.
Proof.
  induction bs as [| b bs IH]; intros H; [reflexivity |].
  cbn [forallb] in H. apply andb_true_iff in H. destruct H as [Hb Hbs].
  apply andb_true_iff in Hb. destruct Hb as [Hf Hs].
  rewrite stripped_lines_cons. cbn [forallb]. rewrite Hf, Hs.
  destruct bs; [reflexivity |]. cbn [forallb]. rewrite (IH Hbs). reflexivity.
Qed.

(** The stripped text of well-formed blocks, whatever whitespace follows
    the last text line. *)
Lemma strip_blocks (b : Block) (bs : list Block) (ws : str) :
  has_nonspace (fst b) = true ->
  ends_nonspace (snd (last (b :: bs) ([], []))) = true ->
  forallb isspace ws = true ->
  strip (join [NL] (stripped_lines (b :: bs)) ++ ws) =
  join [NL] (stripped_lines ((lstrip (fst b), snd b) :: bs)).
Proof.
  intros Hf Hl Hws. unfold strip.
  rewrite stripped_lines_cons, join_cons2, <- !app_assoc.
  rewrite (lstrip_app _ _ Hf).
  rewrite !app_assoc. rewrite <- (app_assoc (lstrip (fst b))).
  change (lstrip (fst b) ++ [NL]
          ++ join [NL] (snd b :: match bs with [] => [] | _ => [] :: stripped_lines bs end))
    with (join [NL] (fst (lstrip (fst b), snd b) :: snd (lstrip (fst b), snd b)
                     :: match bs with [] => [] | _ => [] :: stripped_lines bs end)).
  rewrite <- stripped_lines_cons.
  apply rstrip_app_spaces; [| exact Hws].
  apply ends_nonspace_join_stripped; [discriminate |].
  destruct bs; [exact Hl | exact Hl].
Qed.

Lemma well_formed_cons (b : Block) (bs : list Block) :
  well_formed (b :: bs) = true ->
  has_nl (fst b) = false /\ has_nonspace (fst b) = true /\
  has_nl (snd b) = false /\ well_formed bs = true.
Proof.
  unfold well_formed, time_line. cbn [forallb]. intros H.
  apply andb_true_iff in H. destruct H as [H Hbs].
  apply andb_true_iff in H. destruct H as [H Hs].
  apply andb_true_iff in H. destruct H as [Hn Hf].
  apply negb_true_iff in Hn. apply negb_true_iff in Hs. auto.
Qed.

Lemma well_formed_no_nl (bs : list Block) :
  well_formed bs = true ->
  forallb (fun b => negb (has_nl (fst b)) && negb (has_nl (snd b))) bs = true.
Proof.
  induction bs as [| b bs IH]; intros H; [reflexivity |].
  destruct (well_formed_cons _ _ H) as [Hn [_ [Hs Hbs]]].
  cbn [forallb]. rewrite Hn, Hs, (IH Hbs). reflexivity.
Qed.

(** The filter returns the text lines of well-formed blocks whose last
    text line ends in a character that is not whitespace, whatever
    whitespace follows it. *)
Lemma filter_captions_blocks (bs : list Block) (ws : str) :
  well_formed bs = true -> last_text_ends_nonspace bs = true ->
  forallb isspace ws = true ->
  filter_captions (join [NL] (stripped_lines bs) ++ ws) =
  join (lit " ") (List.map snd bs).
Proof.
  intros Hwf Hlast Hws. unfold filter_captions.
  destruct bs as [| b bs].
  - cbn [stripped_lines join app]. rewrite (strip_spaces _ Hws). reflexivity.
  - destruct (well_formed_cons _ _ Hwf) as [Hn [Hf [Hs Hbs]]].
    rewrite (strip_blocks _ _ _ Hf Hlast Hws).
    rewrite split_join.
    + change (List.map snd (List.filter _ (enumerate ?l))) with (select_from 0 l).
      fold (select_from 0 (stripped_lines ((lstrip (fst b), snd b) :: bs))).
      rewrite select_stripped_lines; reflexivity.
    + rewrite stripped_lines_cons. discriminate.
    + apply stripped_lines_no_nl. cbn [forallb fst snd].
      rewrite (has_nl_lstrip _ Hn), Hs. cbn [negb andb].
      apply well_formed_no_nl, Hbs.
Qed.

(** ** The substring test *)

Lemma startswith_spec (p s : str) :
  startswith p s = true <-> exists b, s = p ++ b.
Proof.
  revert s. induction p as [| x p IH]; intros s; simpl.
  - split; [intros _; exists s; reflexivity | reflexivity].
  - destruct s as [| y s].
    + split; [discriminate | intros [b E]; discriminate E].
    + rewrite andb_true_iff, N.eqb_eq, IH. split.
      * intros [E [b Eb]]. subst. exists b. reflexivity.
      * intros [b E]. injection E as E1 E2.
        split; [symmetry; exact E1 | exists b; exact E2].
Qed.

Lemma contains_spec (p s : str) :
  contains p s = true <-> exists a b, s = a ++ p ++ b.
Proof.
  induction s as [| y s IH].
  - cbn [contains]. rewrite orb_false_r, startswith_spec. split.
    + intros [b E]. exists [], b. exact E.
    + intros [a [b E]]. destruct a; [exists b; exact E | discriminate E].
  - cbn [contains]. rewrite orb_true_iff, startswith_spec, IH. split.
    + intros [[b E] | [a [b E]]].
      * exists [], b. exact E.
      * exists (y :: a), b. rewrite E. reflexivity.
    + intros [a [b E]]. destruct a as [| z a].
      * left. exists b. exact E.
      * right. injection E as _ E. exists a, b. exact E.
Qed.

Lemma contains_rev (p s : str) :
  contains p s = true -> contains (rev p) (rev s) = true.
Proof.
  rewrite !contains_spec. intros [a [b E]]. exists (rev b), (rev a).
  rewrite E, !rev_app_distr, app_assoc. reflexivity.
Qed.

Lemma contains_lstrip (x : char) (p s : str) :
  isspace x = false -> contains (x :: p) s = true ->
  contains (x :: p) (lstrip s) = true.
Proof.
  intros Hx. induction s as [| y s IH]; intros H; [exact H |].
  cbn [lstrip]. destruct (isspace y) eqn:Hy; [| exact H].
  apply IH. cbn [contains startswith] in H.
  destruct (N.eqb_spec x y) as [E | _]; [congruence | exact H].
Qed.

(** A needle that neither starts nor ends with whitespace survives
    [strip]. *)
Lemma contains_strip (x : char) (p s : str) :
  isspace x = false -> ends_nonspace (x :: p) = true ->
  contains (x :: p) s = true -> contains (x :: p) (strip s) = true.
Proof.
  intros Hx He H. unfold strip, rstrip.
  destruct (ends_nonspace_snoc _ He) as [r [c [E Hc]]].
  rewrite <- (rev_involutive (x :: p)). apply contains_rev.
  rewrite E, rev_app_distr. cbn [rev app].
  apply contains_lstrip; [exact Hc |].
  change (c :: rev r) with (rev [c] ++ rev r).
  rewrite <- rev_app_distr, <- E. apply contains_rev.
  apply contains_lstrip; assumption.
Qed.

Lemma str_eqb_eq (a b : str) : str_eqb a b = true <-> a = b.
Proof.
  revert b. induction a as [| x a IH]; intros [| y b]; simpl;
    try (split; [reflexivity | reflexivity]);
    try (split; discriminate).
  rewrite andb_true_iff, N.eqb_eq, IH. split.
  - intros [E1 E2]. subst. reflexivity.
  - intros E. injection E as E1 E2. auto.
Qed.

Lemma str_eqb_neq (a b : str) : a <> b -> str_eqb a b = false.
Proof.
  intros H. destruct (str_eqb a b) eqn:E; [| reflexivity].
  apply str_eqb_eq in E. contradiction.
Qed.

(** ** The text that [download_captions] builds *)

Lemma has_nl_replace (s : str) : has_nl (replace NL SP s) = false.
Proof.
  induction s as [| c s IH]; [reflexivity |].
  unfold replace. cbn [List.map]. rewrite has_nl_cons.
  fold (replace NL SP s). rewrite IH, orb_false_r.
  destruct (N.eqb_spec c NL) as [E | E]; [reflexivity |].
  apply N.eqb_neq. exact E.
Qed.

Lemma join_cons_ne (sep a : str) (rest : list str) :
  rest <> [] -> join sep (a :: rest) = a ++ sep ++ join sep rest.
Proof. destruct rest; [contradiction | reflexivity]. Qed.

Lemma stripped_lines_ne (b : Block) (bs : list Block) :
  stripped_lines (b :: bs) <> [].
Proof. rewrite stripped_lines_cons. discriminate. Qed.

Lemma join_block_lines (bs : list Block) :
  bs <> [] ->
  join [NL] (block_lines bs) = join [NL] (stripped_lines bs) ++ [NL].
Proof.
  induction bs as [| b bs IH]; intros Hne; [contradiction |].
  destruct bs as [| b' bs'].
  - cbn [block_lines flat_map app stripped_lines]. rewrite !join_cons2.
    cbn [join]. rewrite app_nil_r, <- !app_assoc. reflexivity.
  - change (block_lines (b :: b' :: bs'))
      with (fst b :: snd b :: [] :: block_lines (b' :: bs')).
    change (stripped_lines (b :: b' :: bs'))
      with (fst b :: snd b :: [] :: stripped_lines (b' :: bs')).
    rewrite !join_cons2.
    rewrite (join_cons_ne [NL] [] (block_lines (b' :: bs'))) by discriminate.
    rewrite (join_cons_ne [NL] [] (stripped_lines (b' :: bs')))
      by apply stripped_lines_ne.
    rewrite IH by discriminate. rewrite <- !app_assoc. reflexivity.
Qed.

Lemma render_blocks_join (bs : list Block) :
  bs <> [] ->
  render_blocks bs = join [NL] (stripped_lines bs) ++ [NL; NL].
Proof.
  induction bs as [| b bs IH]; intros Hne; [contradiction |].
  unfold render_blocks. cbn [List.map concat]. fold (render_blocks bs).
  destruct bs as [| b' bs'].
  - cbn [render_blocks List.map concat stripped_lines]. rewrite join_cons2.
    cbn [join]. rewrite app_nil_r, <- !app_assoc. reflexivity.
  - rewrite IH by discriminate.
    change (stripped_lines (b :: b' :: bs'))
      with (fst b :: snd b :: [] :: stripped_lines (b' :: bs')).
    rewrite !join_cons2.
    rewrite (join_cons_ne [NL] [] (stripped_lines (b' :: bs')))
      by apply stripped_lines_ne.
    rewrite <- !app_assoc. reflexivity.
Qed.

Section Transcript.

Context {TM : TimeModel}.

Lemma fold_left_srt (transcript : list Entry) (acc : str) :
  fold_left (fun srt_captions entry => srt_captions ++ srt_block entry)
    transcript acc
  = acc ++ concat (List.map srt_block transcript).
Proof.
  revert acc. induction transcript as [| e es IH]; intros acc.
  - cbn. rewrite app_nil_r. reflexivity.
  - cbn [fold_left List.map concat]. rewrite IH, app_assoc. reflexivity.
Qed.

Lemma srt_of_transcript_render (transcript : list Entry) :
  srt_of_transcript transcript = render_blocks (transcript_blocks transcript).
Proof.
  unfold srt_of_transcript. rewrite fold_left_srt. cbn [app].
  unfold render_blocks, transcript_blocks. rewrite map_map.
  f_equal. apply map_ext. intros e. unfold srt_block. cbn [fst snd].
  rewrite <- !app_assoc. reflexivity.
Qed.

Lemma time_format_has_nl (t : time) : has_nl (time_format t) = false.
Proof. apply has_nl_In, time_format_no_newline. Qed.

Lemma transcript_blocks_well_formed (transcript : list Entry) :
  well_formed (transcript_blocks transcript) = true.
Proof.
  induction transcript as [| e es IH]; [reflexivity |].
  unfold well_formed, transcript_blocks. cbn [List.map forallb fst snd].
  fold (transcript_blocks es). fold (well_formed (transcript_blocks es)).
  rewrite IH, has_nl_replace, andb_true_r. cbn [negb]. rewrite andb_true_r.
  unfold time_line. rewrite !has_nl_app, !time_format_has_nl.
  cbn [orb negb andb]. unfold has_nonspace. rewrite !existsb_app.
  apply orb_true_iff. right. reflexivity.
Qed.

Lemma filter_captions_srt (transcript : list Entry) :
  last_text_ends_nonspace (transcript_blocks transcript) = true ->
  filter_captions (srt_of_transcript transcript)
  = join (lit " ") (segment_texts transcript).
Proof.
  intros Hlast. rewrite srt_of_transcript_render.
  replace (segment_texts transcript)
    with (List.map snd (transcript_blocks transcript))
    by (unfold transcript_blocks, segment_texts; rewrite map_map; reflexivity).
  destruct transcript as [| e es]; [reflexivity |].
  rewrite render_blocks_join by discriminate.
  apply filter_captions_blocks;
    [apply transcript_blocks_well_formed | exact Hlast | reflexivity].
Qed.

End Transcript.

Lemma comprehension_select (lines : list str) :
  forall i, comprehension (enumerate_from i lines) = Returns (select_from i lines).
Proof.
  induction lines as [| l ls IH]; intros i; [reflexivity |].
  cbn [enumerate_from comprehension]. rewrite IH.
  unfold py_mod, select_from. cbn [Z.eqb enumerate_from filter fst].
  destruct ((i - 1) mod 3 =? 0)%Z; reflexivity.
Qed.

(** ** Computations that leave the globals alone *)

Lemma preserves_ret {A : Type} (a : A) : preserves_globals (ret a).
Proof. intros g. reflexivity. Qed.

Lemma preserves_emit (e : Event) : preserves_globals (emit e).
Proof. intros g. reflexivity. Qed.

Lemma preserves_print (s : str) : preserves_globals (print s).
Proof. intros g. reflexivity. Qed.

Lemma preserves_get_title : preserves_globals get_title.
Proof. intros g. reflexivity. Qed.

Lemma preserves_bind {A B : Type} (m : M A) (k : A -> M B) :
  preserves_globals m -> (forall a, preserves_globals (k a)) ->
  preserves_globals (bind m k).
Proof.
  intros Hm Hk g. unfold bind, globals_after.
  specialize (Hm g). unfold globals_after in Hm.
  destruct (m g) as [[a g1] ev1]. cbn [fst snd] in Hm. subst g1.
  specialize (Hk a g). unfold globals_after in Hk.
  destruct (k a g) as [[b g2] ev2]. exact Hk.
Qed.

Lemma preserves_for_each {A : Type} (l : list A) (body : A -> M unit) :
  (forall x, preserves_globals (body x)) ->
  preserves_globals (for_each l body).
Proof.
  intros Hb. induction l as [| x l IH]; cbn [for_each].
  - apply preserves_ret.
  - apply preserves_bind; [apply Hb | intros _; exact IH].
Qed.

Create HintDb frame.
#[export] Hint Resolve preserves_ret preserves_emit preserves_print
  preserves_get_title : frame.

(** Splits a computation along its binds and branches. *)
Ltac frame :=
  repeat first
    [ apply preserves_bind; [| intro]
    | apply preserves_for_each; intro
    | match goal with
      | |- preserves_globals (if ?c then _ else _) => destruct c
      | |- preserves_globals (match ?x with _ => _ end) => destruct x
      end
    | solve [auto with frame] ].

(** ** The stages of the pipeline, run *)

Section Runs.

Context {TM : TimeModel}.
Variable w : World.

Lemma get_video_info_result (url : str) (g : Globals) :
  result (get_video_info w url g) = video_info_value w url.
Proof.
  unfold get_video_info, video_info_value, bind, emit, print, ret, result.
  destruct (yt_dlp w url); reflexivity.
Qed.

Lemma get_video_info_globals (url : str) : preserves_globals (get_video_info w url).
Proof.
  intros g. unfold get_video_info, bind, emit, print, ret, globals_after.
  destruct (yt_dlp w url); reflexivity.
Qed.

Lemma get_video_info_requests (url : str) (g : Globals) :
  existsb is_request (events (get_video_info w url g)) = false /\
  forall f, f <> Fn_get_video_info ->
    called f (events (get_video_info w url g)) = false.
Proof.
  unfold get_video_info, bind, emit, print, ret, events.
  destruct (yt_dlp w url); (split; [reflexivity |]);
    intros f Hf; destruct f; try reflexivity; contradiction.
Qed.

Lemma download_captions_run (video_id : PyValue) (lang_code : str) (g : Globals) :
  download_captions w video_id lang_code g =
  (captions_text w video_id lang_code, g,
   [Call Fn_download_captions [video_id; PyStr lang_code];
    GetTranscript video_id [lang_code]]).
Proof.
  unfold download_captions, captions_text, bind, emit, ret.
  destruct (get_transcript w video_id [lang_code]); reflexivity.
Qed.

Lemma fetch_gpt3_response_run (prompt : str) (max_tokens : option Z) (g : Globals) :
  let budget :=
    match max_tokens with Some n => n | None => default_max_tokens end in
  fetch_gpt3_response w prompt max_tokens g =
  (response_text w prompt budget, g,
   [Call Fn_fetch_gpt3_response [PyStr prompt];
    ChatCompletionsCreate chat_model (chat_messages prompt) budget]).
Proof.
  unfold fetch_gpt3_response, response_text, bind, emit, ret.
  destruct max_tokens;
    match goal with
    | |- context [chat_completions_create w ?m ?ms ?n] =>
        destruct (chat_completions_create w m ms n)
    end; reflexivity.
Qed.

Lemma build_prompt_run (mode filtered_captions : str) (g : Globals) :
  build_prompt w mode filtered_captions g =
  (selected_prompt mode (format_value (py_repr w) (title g)) filtered_captions, g,
   if str_eqb mode (lit "standart") then
     [Call Fn_generate_standart_prompt [title g; PyStr filtered_captions]]
   else if str_eqb mode (lit "bulletpoint") then
     [Call Fn_generate_bulletpoint_prompt [title g; PyStr filtered_captions]]
   else
     [Stdout (unknown_mode_warning mode);
      Call Fn_generate_standart_prompt [title g; PyStr filtered_captions]]).
Proof.
  unfold build_prompt, selected_prompt.
  destruct (str_eqb mode (lit "standart")) eqn:Es.
  - apply str_eqb_eq in Es. subst mode. reflexivity.
  - destruct (str_eqb mode (lit "bulletpoint")); reflexivity.
Qed.

Lemma present_globals (mode response : str) (copy_to_clipboard : bool) :
  preserves_globals (present w mode response copy_to_clipboard).
Proof. unfold present. frame. Qed.

Lemma present_result (mode response : str) (copy_to_clipboard : bool)
    (g : Globals) :
  result (present w mode response copy_to_clipboard g)
  = if copy_raises w response copy_to_clipboard
    then Raises (lit "PyperclipException") else Returns tt.
Proof.
  unfold present, copy_raises.
  unfold bind at 1. unfold print at 1, emit at 1.
  unfold bind at 1. unfold print at 1, emit at 1.
  unfold bind at 1.
  match goal with
  | |- context [(if str_eqb ?m ?b then ?x else ?y) ?g0] =>
      destruct ((if str_eqb m b then x else y) g0) as [[u g1] ev]
  end.
  unfold bind at 1. unfold print at 1, emit at 1.
  destruct copy_to_clipboard; [destruct (CLIPBOARD_AVAILABLE w);
                               [destruct (pyperclip_copy w response) |] |];
    reflexivity.
Qed.

Lemma resolve_some (v : PyValue) (video_info : VideoInfo) :
  resolve v = Some video_info ->
  truthy v = true /\
  subscript v (lit "title") = Returns (vi_title video_info) /\
  subscript v (lit "id") = Returns (vi_id video_info).
Proof.
  unfold resolve. destruct (truthy v); [| discriminate].
  destruct (subscript v (lit "title")); [| discriminate].
  destruct (subscript v (lit "id")); [| discriminate].
  intros H. injection H as H. subst video_info. repeat split.
Qed.

(** The steps of [get_video_summary] up to the test of [video_info]. *)
Ltac enter_run video_url g ev :=
  unfold get_video_summary;
  unfold bind at 1; unfold print at 1, emit at 1;
  unfold bind at 1;
  let Hr := fresh "Hr" in
  let Hg := fresh "Hg" in
  pose proof (get_video_info_result video_url g) as Hr;
  pose proof (get_video_info_globals video_url g) as Hg;
  unfold result, globals_after, events in *;
  destruct (get_video_info w video_url g) as [[? ?] ev];
  cbn [fst snd] in Hr, Hg; subst.

(** [get_video_summary] when the title and the id are not both read:
    [video_info] is falsy, or a subscript raises. *)
Lemma get_video_summary_unresolved (video_url video_lang mode : str)
    (copy_to_clipboard : bool) (g : Globals) :
  metadata w video_url = None ->
  exists banner,
    get_video_summary w video_url video_lang mode copy_to_clipboard g =
    (unresolved_outcome (video_info_value w video_url),
     unresolved_globals (video_info_value w video_url) g,
     Stdout banner :: events (get_video_info w video_url g)).
Proof.
  intros Hm. eexists. unfold metadata, resolve in Hm.
  unfold unresolved_outcome, unresolved_globals.
  enter_run video_url g ev.
  destruct (truthy (video_info_value w video_url)); cbn [negb].
  - unfold try_bind at 1. unfold bind at 1. unfold ret at 1.
    destruct (subscript (video_info_value w video_url) (lit "title")) as [t | e].
    + unfold bind at 1. unfold set_title at 1.
      unfold try_bind at 1. unfold bind at 1. unfold ret at 1.
      destruct (subscript (video_info_value w video_url) (lit "id")) as [i | e];
        [discriminate Hm |].
      unfold ret. cbn [app snd]. rewrite app_nil_r. reflexivity.
    + unfold ret. cbn [app snd]. rewrite app_nil_r. reflexivity.
  - unfold ret. cbn [app snd]. rewrite app_nil_r. reflexivity.
Qed.

(** [get_video_summary] when [video_info] is falsy. *)
Lemma get_video_summary_no_metadata (video_url video_lang mode : str)
    (copy_to_clipboard : bool) (g : Globals) :
  truthy (video_info_value w video_url) = false ->
  exists banner,
    get_video_summary w video_url video_lang mode copy_to_clipboard g =
    (Returns None, g, Stdout banner :: events (get_video_info w video_url g)).
Proof.
  intros Ht.
  assert (metadata w video_url = None) as Hm
      by (unfold metadata, resolve; rewrite Ht; reflexivity).
  destruct (get_video_summary_unresolved video_url video_lang mode
              copy_to_clipboard g Hm) as [banner E].
  exists banner. rewrite E. unfold unresolved_outcome, unresolved_globals.
  rewrite Ht. reflexivity.
Qed.

Lemma captions_of_run_text (video_info : VideoInfo) (video_lang : str) :
  captions_of_run w video_info video_lang
  = captions_text w (vi_id video_info) video_lang.
Proof. unfold captions_of_run. rewrite download_captions_run. reflexivity. Qed.

Lemma prompt_of_run_selected (video_info : VideoInfo) (video_lang mode : str) :
  prompt_of_run w video_info video_lang mode
  = selected_prompt mode (format_value (py_repr w) (vi_title video_info))
      (filter_captions (captions_of_run w video_info video_lang)).
Proof. unfold prompt_of_run. rewrite build_prompt_run. reflexivity. Qed.

(** The steps of a run that reads the title and the id, up to the test of
    the caption text. *)
Ltac enter_caption_stage video_url g Hm ev :=
  let Ht := fresh "Ht" in
  let Htitle := fresh "Htitle" in
  let Hid := fresh "Hid" in
  destruct (resolve_some _ _ Hm) as [Ht [Htitle Hid]];
  enter_run video_url g ev;
  rewrite Ht; cbn [negb];
  unfold try_bind at 1; unfold bind at 1; unfold ret at 1; rewrite Htitle;
  unfold bind at 1; unfold set_title at 1;
  unfold try_bind at 1; unfold bind at 1; unfold ret at 1; rewrite Hid;
  unfold bind at 1; unfold print at 1, emit at 1;
  unfold bind at 1; rewrite download_captions_run.

(** [get_video_summary] when the caption text is taken for an error. *)
Lemma get_video_summary_captions_flagged (video_url video_lang mode : str)
    (copy_to_clipboard : bool) (g : Globals) (video_info : VideoInfo) :
  metadata w video_url = Some video_info ->
  contains (lit "Error occurred") (captions_of_run w video_info video_lang) = true ->
  exists banner downloading failed,
    get_video_summary w video_url video_lang mode copy_to_clipboard g =
    (Returns None, {| title := vi_title video_info |},
     Stdout banner :: events (get_video_info w video_url g)
     ++ [Stdout downloading;
         Call Fn_download_captions [vi_id video_info; PyStr video_lang];
         GetTranscript (vi_id video_info) [video_lang];
         Stdout failed;
         Stdout (captions_of_run w video_info video_lang)]).
Proof.
  intros Hm Hc. rewrite captions_of_run_text in *. do 3 eexists.
  unfold metadata in Hm.
  enter_caption_stage video_url g Hm ev. rewrite Hc.
  unfold bind, print, emit, ret. cbn [app snd]. reflexivity.
Qed.

(** [get_video_summary] from the prompt stage on. *)
Lemma get_video_summary_prompt_stage (video_url video_lang mode : str)
    (copy_to_clipboard : bool) (g : Globals) (video_info : VideoInfo) :
  metadata w video_url = Some video_info ->
  contains (lit "Error occurred") (captions_of_run w video_info video_lang) = false ->
  let g' := {| title := vi_title video_info |} in
  let filtered_captions := filter_captions (captions_of_run w video_info video_lang) in
  let prompt := prompt_of_run w video_info video_lang mode in
  let response := response_text w prompt default_max_tokens in
  exists before fetching after,
    get_video_summary w video_url video_lang mode copy_to_clipboard g =
    (summary_outcome w response copy_to_clipboard,
     g',
     before
     ++ events (build_prompt w mode filtered_captions g')
     ++ [Stdout fetching;
         Call Fn_fetch_gpt3_response [PyStr prompt];
         ChatCompletionsCreate chat_model (chat_messages prompt) default_max_tokens]
     ++ after).
Proof.
  intros Hm Hc. cbv zeta. rewrite prompt_of_run_selected.
  rewrite captions_of_run_text in *. unfold metadata in Hm.
  unfold summary_outcome.
  enter_caption_stage video_url g Hm ev. rewrite Hc.
  unfold bind at 1. unfold print at 1, emit at 1.
  unfold bind at 1. unfold emit at 1.
  unfold bind at 1. rewrite build_prompt_run.
  unfold bind at 1. unfold print at 1, emit at 1.
  unfold bind at 1. rewrite fetch_gpt3_response_run.
  cbv zeta. cbn [title].
  match goal with
  | |- context [if ?c then (_ ;; _ ;; ret (Returns None)) else _] => destruct c
  end.
  - unfold bind, print, emit, ret. cbn [app snd].
    eexists (Stdout _ :: ev ++ [_; _; _; _; _]), _, [_; _].
    cbn [app]. rewrite <- !app_assoc. cbn [app]. reflexivity.
  - unfold try_bind at 1. unfold bind at 1.
    match goal with
    | |- context [present w ?m ?r ?c ?g0] =>
        pose proof (present_globals m r c g0) as Hp;
        pose proof (present_result m r c g0) as Hq;
        destruct (present w m r c g0) as [[u g2] evp]
    end.
    unfold globals_after in Hp. unfold result in Hq.
    cbn [fst snd] in Hp, Hq. subst g2 u.
    eexists (Stdout _ :: ev ++ [_; _; _; _; _]), _, (evp ++ []).
    destruct (copy_raises w _ copy_to_clipboard);
      unfold ret; cbn [app snd]; rewrite <- !app_assoc; cbn [app]; reflexivity.
Qed.

(** The whole log of a run. *)

Lemma for_each_print_run (f : str -> str) (lines : list str) (g : Globals) :
  for_each lines (fun line => print (f line)) g
  = (tt, g, List.map Stdout (List.map f lines)).
Proof.
  induction lines as [| l ls IH]; [reflexivity |].
  cbn [for_each]. unfold bind. unfold print at 1. unfold emit at 1.
  cbv beta iota. rewrite IH. reflexivity.
Qed.

Lemma present_run (mode response : str) (copy_to_clipboard : bool) :
  exists top heading bottom copied unavailable,
  forall g,
    present w mode response copy_to_clipboard g =
    (if copy_raises w response copy_to_clipboard
     then Raises (lit "PyperclipException") else Returns tt,
     g,
     Stdout top :: Stdout heading
     :: (if str_eqb mode (lit "bulletpoint")
         then List.map Stdout (List.map (app (lit "  ")) (splitlines response))
         else [Stdout (response ++ [NL])])
     ++ Stdout bottom
     :: (if copy_to_clipboard
         then if CLIPBOARD_AVAILABLE w
              then if pyperclip_copy w response
                   then [PyperclipCopy response; Stdout copied]
                   else []
              else [Stdout unavailable]
         else [])).
Proof.
  do 5 eexists. intros g. unfold present, copy_raises.
  unfold bind at 1. unfold print at 1, emit at 1.
  unfold bind at 1. unfold print at 1, emit at 1.
  unfold bind at 1.
  destruct (str_eqb mode (lit "bulletpoint")).
  - rewrite for_each_print_run.
    unfold bind at 1. unfold print at 1, emit at 1.
    destruct copy_to_clipboard;
      [destruct (CLIPBOARD_AVAILABLE w);
       [destruct (pyperclip_copy w response) |] |];
      unfold bind, print, emit, ret; cbn [app andb negb];
      rewrite ?app_nil_r; reflexivity.
  - unfold print at 1, emit at 1.
    unfold bind at 1. unfold print at 1, emit at 1.
    destruct copy_to_clipboard;
      [destruct (CLIPBOARD_AVAILABLE w);
       [destruct (pyperclip_copy w response) |] |];
      unfold bind, print, emit, ret; cbn [app andb negb]; reflexivity.
Qed.

Lemma get_video_info_events (url : str) (g : Globals) :
  exists diagnostics,
    events (get_video_info w url g)
    = Call Fn_get_video_info [PyStr url]
      :: SubprocessRun [lit "yt-dlp"; lit "--skip-download"; lit "--print-json"; url]
      :: List.map Stdout diagnostics.
Proof.
  unfold get_video_info, bind, emit, print, ret, events.
  destruct (yt_dlp w url);
    [exists [] | eexists [_; _] | eexists [_; _] | eexists [_]]; reflexivity.
Qed.

(** The log of a run from the prompt stage on. *)
Lemma get_video_summary_log (video_url video_lang mode : str)
    (copy_to_clipboard : bool) (g : Globals) (video_info : VideoInfo) :
  metadata w video_url = Some video_info ->
  contains (lit "Error occurred") (captions_of_run w video_info video_lang) = false ->
  let g' := {| title := vi_title video_info |} in
  let captions := captions_of_run w video_info video_lang in
  let prompt := prompt_of_run w video_info video_lang mode in
  let response := response_text w prompt default_max_tokens in
  exists banner downloading filtering fetching failed,
    events (get_video_summary w video_url video_lang mode copy_to_clipboard g) =
    Stdout banner :: events (get_video_info w video_url g)
    ++ [Stdout downloading;
        Call Fn_download_captions [vi_id video_info; PyStr video_lang];
        GetTranscript (vi_id video_info) [video_lang];
        Stdout filtering;
        Call Fn_filter_captions [PyStr captions]]
    ++ events (build_prompt w mode (filter_captions captions) g')
    ++ [Stdout fetching;
        Call Fn_fetch_gpt3_response [PyStr prompt];
        ChatCompletionsCreate chat_model (chat_messages prompt) default_max_tokens]
    ++ (if contains (lit "Error fetching GPT-3 response") response
        then [Stdout failed; Stdout response]
        else events (present w mode response copy_to_clipboard g')).
Proof.
  intros Hm Hc. cbv zeta. rewrite prompt_of_run_selected.
  rewrite captions_of_run_text in *. unfold metadata in Hm.
  do 5 eexists.
  enter_caption_stage video_url g Hm ev. rewrite Hc.
  unfold bind at 1. unfold print at 1, emit at 1.
  unfold bind at 1. unfold emit at 1.
  unfold bind at 1. rewrite !build_prompt_run.
  unfold bind at 1. unfold print at 1, emit at 1.
  unfold bind at 1. rewrite fetch_gpt3_response_run.
  cbv zeta. cbn [title].
  match goal with
  | |- context [if ?c then (_ ;; _ ;; ret (Returns None)) else _] => destruct c
  end.
  - unfold bind, print, emit, ret. cbn [app snd].
    rewrite <- ?app_assoc. cbn [app]. reflexivity.
  - unfold try_bind at 1. unfold bind at 1.
    match goal with
    | |- context [present w ?m ?r ?c ?g0] =>
        pose proof (present_globals m r c g0) as Hp;
        destruct (present w m r c g0) as [[u g2] evp]
    end.
    unfold globals_after in Hp. cbn [fst snd] in Hp. subst g2.
    destruct u; unfold ret; cbn [app snd];
      rewrite <- ?app_assoc, ?app_nil_r; cbn [app]; reflexivity.
Qed.

(** The lines printed for a failure. *)

Lemma metadata_failure_line (url : str) (g : Globals) :
  (forall v, yt_dlp w url <> YtJson v) ->
  exists msg,
    In (Stdout (COLOR_RED ++ ICON_ERROR ++ msg)) (events (get_video_info w url g)).
Proof.
  unfold get_video_info, bind, emit, print, ret, events.
  destruct (yt_dlp w url) as [v | | |]; intros H;
    [contradiction (H v); reflexivity | | |];
    eexists; cbn [snd app]; right; right; left; reflexivity.
Qed.

Lemma caption_failure_line (video_url video_lang mode : str)
    (copy_to_clipboard : bool) (g : Globals) (video_info : VideoInfo) :
  metadata w video_url = Some video_info ->
  contains (lit "Error occurred") (captions_of_run w video_info video_lang) = true ->
  In (Stdout (COLOR_RED ++ ICON_ERROR ++ lit " Failed to download captions."
              ++ COLOR_RESET))
     (events (get_video_summary w video_url video_lang mode copy_to_clipboard g)).
Proof.
  intros Hm Hc. rewrite captions_of_run_text in Hc. unfold metadata in Hm.
  enter_caption_stage video_url g Hm ev. rewrite Hc.
  unfold bind, print, emit, ret. cbn [app snd].
  right. apply in_or_app. right. do 3 right. left. reflexivity.
Qed.

Lemma completion_failure_line (video_url video_lang mode : str)
    (copy_to_clipboard : bool) (g : Globals) (video_info : VideoInfo) :
  metadata w video_url = Some video_info ->
  contains (lit "Error occurred") (captions_of_run w video_info video_lang) = false ->
  contains (lit "Error fetching GPT-3 response")
    (response_text w (prompt_of_run w video_info video_lang mode)
       default_max_tokens) = true ->
  In (Stdout (COLOR_RED ++ ICON_ERROR ++ lit " Failed to fetch OpenAI Response."
              ++ COLOR_RESET))
     (events (get_video_summary w video_url video_lang mode copy_to_clipboard g)).
Proof.
  intros Hm Hc Hf. rewrite prompt_of_run_selected in Hf.
  rewrite captions_of_run_text in *. unfold metadata in Hm.
  enter_caption_stage video_url g Hm ev. rewrite Hc.
  unfold bind at 1. unfold print at 1, emit at 1.
  unfold bind at 1. unfold emit at 1.
  unfold bind at 1. rewrite build_prompt_run.
  unfold bind at 1. unfold print at 1, emit at 1.
  unfold bind at 1. rewrite fetch_gpt3_response_run.
  cbv zeta. cbn [title]. rewrite Hf.
  unfold bind, print, emit, ret. cbn [app snd].
  right. apply in_or_app. right. do 5 right.
  apply in_or_app. right. do 3 right. left. reflexivity.
Qed.

End Runs.

(** ** Properties of the caption filter *)

(** C2 (as amended): for caption input made of well-formed blocks of three
    lines (a time line that is not blank, a text line, a blank line) whose
    last text line ends in a character that is not whitespace,
    [filter_captions] returns the text lines of the blocks, joined by single
    spaces, in the order of the blocks. *)
Theorem filter_captions_text_lines (bs : list Block) :
  well_formed bs = true -> last_text_ends_nonspace bs = true ->
  filter_captions (join [NL] (block_lines bs)) = join (lit " ") (List.map snd bs).
Proof.
  intros Hwf Hlast. destruct bs as [| b bs]; [reflexivity |].
  rewrite join_block_lines by discriminate.
  apply filter_captions_blocks; [exact Hwf | exact Hlast | reflexivity].
Qed.

(** The example of the specification: the six lines yield "Hello World". *)
Lemma hello_world_example :
  filter_captions
    (join [NL] [lit "0 --> 1"; lit "Hello"; []; lit "1 --> 2"; lit "World"; []])
  = lit "Hello World".
Proof.
  exact (filter_captions_text_lines
           [(lit "0 --> 1", lit "Hello"); (lit "1 --> 2", lit "World")]
           eq_refl eq_refl).
Defined.

(** C2 as stated fails when the last text line ends in whitespace: [strip]
    removes it with the blank line. *)
Lemma trailing_space_dropped :
  well_formed [(lit "0 --> 1", lit "Hello ")] = true /\
  filter_captions (join [NL] (block_lines [(lit "0 --> 1", lit "Hello ")]))
  = lit "Hello" /\
  filter_captions (join [NL] (block_lines [(lit "0 --> 1", lit "Hello ")]))
  <> join (lit " ") (List.map snd [(lit "0 --> 1", lit "Hello ")]).
Proof.
  split; [reflexivity |]. split; [vm_compute; reflexivity |].
  vm_compute. discriminate.
Qed.

(** C3: [filter_captions] never raises, the one partial operator of its
    body being applied to the divisor 3, and the empty text yields the
    empty text. *)
Theorem filter_captions_total :
  filter_captions [] = [] /\
  forall captions : str,
    filter_captions_checked captions = Returns (filter_captions captions).
Proof.
  split; [reflexivity |]. intros captions.
  unfold filter_captions_checked, filter_captions, enumerate.
  rewrite comprehension_select. reflexivity.
Qed.

(** C7 (as amended): when the text of the last segment, its line feeds
    replaced by spaces, ends in a character that is not whitespace (or there
    is no segment), [filter_captions] applied to the text built by
    [download_captions] yields the segment texts, line feeds replaced by
    spaces, joined by single spaces in the order of the segments. *)
Theorem filter_download_roundtrip {TM : TimeModel} (w : World)
    (video_id : PyValue) (lang_code : str) (transcript : list Entry)
    (g : Globals) :
  get_transcript w video_id [lang_code] = TranscriptEntries transcript ->
  last_text_ends_nonspace (transcript_blocks transcript) = true ->
  filter_captions (result (download_captions w video_id lang_code g))
  = join (lit " ") (segment_texts transcript).
Proof.
  intros Hw Hlast. unfold download_captions, bind, emit, ret, result.
  rewrite Hw. cbn [fst]. apply filter_captions_srt, Hlast.
Qed.

(** The scenario of the specification: two segments. *)
Lemma roundtrip_demo :
  filter_captions
    (result (download_captions demo_world (PyStr (lit "abc123")) (lit "en")
               initial_globals))
  = lit "Hi there General Kenobi".
Proof.
  exact (filter_download_roundtrip demo_world (PyStr (lit "abc123")) (lit "en")
           demo_transcript initial_globals eq_refl eq_refl).
Defined.

(** C7 as stated fails on one segment whose text ends in a space. *)
Lemma roundtrip_loses_trailing_space :
  let w := scripted_world (YtJson demo_json)
             (TranscriptEntries [int_entry 0 2 (lit "Hi ")])
             (CompletionContent demo_summary) in
  filter_captions
    (result (download_captions w (PyStr (lit "abc123")) (lit "en") initial_globals))
  = lit "Hi" /\
  filter_captions
    (result (download_captions w (PyStr (lit "abc123")) (lit "en") initial_globals))
  <> join (lit " ") (segment_texts [int_entry 0 2 (lit "Hi ")]).
Proof.
  split; [vm_compute; reflexivity | vm_compute; discriminate].
Qed.

(** ** Properties of the orchestration *)

Lemma error_response_flagged (e : str) :
  contains (lit "Error fetching GPT-3 response")
    (COLOR_RED ++ ICON_ERROR ++ lit " Error fetching GPT-3 response: " ++ e
     ++ COLOR_RESET) = true.
Proof.
  apply contains_spec.
  exists (COLOR_RED ++ ICON_ERROR ++ lit " "), (lit ": " ++ e ++ COLOR_RESET).
  change (lit " Error fetching GPT-3 response: ")
    with (lit " " ++ lit "Error fetching GPT-3 response" ++ lit ": ").
  rewrite <- !app_assoc. reflexivity.
Qed.

Lemma selected_prompt_fallback (mode video_title filtered_captions : str) :
  mode <> lit "bulletpoint" ->
  selected_prompt mode video_title filtered_captions
  = generate_standart_prompt video_title filtered_captions.
Proof.
  intros H. unfold selected_prompt. rewrite (str_eqb_neq _ _ H). reflexivity.
Qed.

Lemma called_cons_stdout (f : Fn) (s : str) (evs : list Event) :
  called f (Stdout s :: evs) = called f evs.
Proof. reflexivity. Qed.

(** C1 (the code departs from it): the transcript request raises, the text
    returned by [download_captions] reads "An error occurred", the test for
    "Error occurred" misses it, and the run goes on to the Summarizer and
    returns its text. *)
Theorem caption_failure_reaches_summarizer :
  let run :=
    get_video_summary no_captions_world demo_url (lit "en") (lit "standart")
      false initial_globals in
  contains (lit "Error occurred")
    (result (download_captions no_captions_world (PyStr (lit "abc123")) (lit "en")
               initial_globals)) = false /\
  called Fn_fetch_gpt3_response (events run) = true /\
  result run = Returns (Some demo_summary).
Proof. vm_compute. repeat split. Qed.

(** C4: for a mode that is neither "standart" nor "bulletpoint" the prompt
    builder prints a warning and builds the prompt of mode "standart"; the
    run returns what the run in mode "standart" returns; and a run that
    reaches the prompt stage prints the warning and sends the "standart"
    prompt to the Summarizer. *)
Theorem unknown_mode_falls_back {TM : TimeModel} (w : World)
    (video_url video_lang mode : str) (copy_to_clipboard : bool) (g : Globals) :
  mode <> lit "standart" -> mode <> lit "bulletpoint" ->
  (forall filtered_captions g0,
      result (build_prompt w mode filtered_captions g0)
      = result (build_prompt w (lit "standart") filtered_captions g0) /\
      In (Stdout (unknown_mode_warning mode))
        (events (build_prompt w mode filtered_captions g0))) /\
  result (get_video_summary w video_url video_lang mode copy_to_clipboard g)
  = result (get_video_summary w video_url video_lang (lit "standart")
              copy_to_clipboard g) /\
  (forall video_info,
      reaches_prompt_stage w video_url video_lang g video_info ->
      let evs :=
        events (get_video_summary w video_url video_lang mode
                  copy_to_clipboard g) in
      In (Stdout (unknown_mode_warning mode)) evs /\
      In (ChatCompletionsCreate chat_model
            (chat_messages
               (generate_standart_prompt
                  (format_value (py_repr w) (vi_title video_info))
                  (filter_captions (captions_of_run w video_info video_lang))))
            default_max_tokens) evs).
Proof.
  intros Hs Hb.
  assert (forall f g0, events (build_prompt w mode f g0)
                       = [Stdout (unknown_mode_warning mode);
                          Call Fn_generate_standart_prompt [title g0; PyStr f]])
    as Hev.
  { intros f g0. rewrite build_prompt_run. unfold events. cbn [snd].
    rewrite (str_eqb_neq _ _ Hs), (str_eqb_neq _ _ Hb). reflexivity. }
  split; [| split].
  - intros f g0. split.
    + rewrite !build_prompt_run. unfold result. cbn [fst].
      apply selected_prompt_fallback, Hb.
    + rewrite Hev. left. reflexivity.
  - destruct (metadata w video_url) as [info |] eqn:Hm.
    + destruct (contains (lit "Error occurred") (captions_of_run w info video_lang))
        eqn:Hc.
      * destruct (get_video_summary_captions_flagged w video_url video_lang mode
                    copy_to_clipboard g info Hm Hc) as [? [? [? E1]]].
        destruct (get_video_summary_captions_flagged w video_url video_lang
                    (lit "standart") copy_to_clipboard g info Hm Hc)
          as [? [? [? E2]]].
        rewrite E1, E2. reflexivity.
      * destruct (get_video_summary_prompt_stage w video_url video_lang mode
                    copy_to_clipboard g info Hm Hc) as [? [? [? E1]]].
        destruct (get_video_summary_prompt_stage w video_url video_lang
                    (lit "standart") copy_to_clipboard g info Hm Hc)
          as [? [? [? E2]]].
        rewrite E1, E2. unfold result. cbn [fst].
        rewrite !prompt_of_run_selected.
        rewrite (selected_prompt_fallback _ _ _ Hb). reflexivity.
    + destruct (get_video_summary_unresolved w video_url video_lang mode
                  copy_to_clipboard g Hm) as [? E1].
      destruct (get_video_summary_unresolved w video_url video_lang
                  (lit "standart") copy_to_clipboard g Hm) as [? E2].
      rewrite E1, E2. reflexivity.
  - intros info [Hi Hc]. rewrite get_video_info_result in Hi.
    destruct (get_video_summary_prompt_stage w video_url video_lang mode
                copy_to_clipboard g info Hi Hc) as [before [fetching [after E]]].
    cbv zeta. rewrite E. unfold events at 1 3. cbn [snd].
    rewrite Hev, prompt_of_run_selected, (selected_prompt_fallback _ _ _ Hb).
    split.
    + apply in_or_app. right. left. reflexivity.
    + apply in_or_app. right. apply in_or_app. right.
      right. right. left. reflexivity.
Qed.

(** A mode that is not one of the two known, in the scenario of the
    specification. *)
Lemma unknown_mode_demo :
  let run :=
    get_video_summary demo_world demo_url (lit "en") (lit "haiku") false
      initial_globals in
  result run = Returns (Some demo_summary) /\
  In (Stdout (unknown_mode_warning (lit "haiku"))) (events run) /\
  In (ChatCompletionsCreate chat_model
        (chat_messages
           (generate_standart_prompt (lit "Demo") (lit "Hi there General Kenobi")))
        default_max_tokens) (events run).
Proof.
  assert (lit "haiku" <> lit "standart") as Hs
      by (intros H; vm_compute in H; discriminate H).
  assert (lit "haiku" <> lit "bulletpoint") as Hb
      by (intros H; vm_compute in H; discriminate H).
  destruct (unknown_mode_falls_back demo_world demo_url (lit "en") (lit "haiku")
              false initial_globals Hs Hb) as [_ [Hr Hev]].
  split; [rewrite Hr; vm_compute; reflexivity |].
  apply (Hev demo_info). split; vm_compute; reflexivity.
Defined.

(** C5: when [get_video_info] returns [None], [get_video_summary] returns
    [None], leaves the globals as they were, and calls neither
    [download_captions], nor a prompt builder, nor [fetch_gpt3_response];
    no transcript or completion request is made. *)
Theorem metadata_failure_short_circuits {TM : TimeModel} (w : World)
    (video_url video_lang mode : str) (copy_to_clipboard : bool) (g : Globals) :
  result (get_video_info w video_url g) = PyNone ->
  let run := get_video_summary w video_url video_lang mode copy_to_clipboard g in
  result run = Returns None /\
  globals_after run = g /\
  called Fn_download_captions (events run) = false /\
  called Fn_filter_captions (events run) = false /\
  called Fn_generate_standart_prompt (events run) = false /\
  called Fn_generate_bulletpoint_prompt (events run) = false /\
  called Fn_fetch_gpt3_response (events run) = false /\
  existsb is_request (events run) = false.
Proof.
  intros H. rewrite get_video_info_result in H.
  assert (truthy (video_info_value w video_url) = false) as Ht
      by (rewrite H; reflexivity).
  destruct (get_video_summary_no_metadata w video_url video_lang mode
              copy_to_clipboard g Ht) as [banner E].
  cbv zeta. rewrite E. unfold result, globals_after. unfold events at 1 2 3 4 5 6.
  cbn [fst snd]. rewrite !called_cons_stdout.
  destruct (get_video_info_requests w video_url g) as [Hreq Hcall].
  repeat split; try (apply Hcall; discriminate). exact Hreq.
Qed.

Lemma metadata_failure_demo :
  let run :=
    get_video_summary no_metadata_world demo_url (lit "en") (lit "standart")
      false initial_globals in
  result run = Returns None /\
  called Fn_download_captions (events run) = false /\
  called Fn_fetch_gpt3_response (events run) = false.
Proof.
  destruct (metadata_failure_short_circuits no_metadata_world demo_url (lit "en")
              (lit "standart") false initial_globals eq_refl)
    as [Hr [_ [Hd [_ [_ [_ [Hf _]]]]]]].
  split; [exact Hr | split; [exact Hd | exact Hf]].
Defined.

(** C6: a run that reaches the summarization stage calls
    [fetch_gpt3_response] with the prompt it built and requests the
    completion with [max_tokens] 4069; a caller of [fetch_gpt3_response]
    that passes [max_tokens] has its value requested instead. *)
Theorem summarizer_default_budget {TM : TimeModel} (w : World)
    (video_url video_lang mode : str) (copy_to_clipboard : bool) (g : Globals)
    (video_info : VideoInfo) :
  reaches_prompt_stage w video_url video_lang g video_info ->
  let prompt := prompt_of_run w video_info video_lang mode in
  let evs :=
    events (get_video_summary w video_url video_lang mode copy_to_clipboard g) in
  In (Call Fn_fetch_gpt3_response [PyStr prompt]) evs /\
  In (ChatCompletionsCreate chat_model (chat_messages prompt) 4069) evs /\
  (forall n p g0,
      events (fetch_gpt3_response w p (Some n) g0)
      = [Call Fn_fetch_gpt3_response [PyStr p];
         ChatCompletionsCreate chat_model (chat_messages p) n]) /\
  (forall p g0,
      events (fetch_gpt3_response w p None g0)
      = [Call Fn_fetch_gpt3_response [PyStr p];
         ChatCompletionsCreate chat_model (chat_messages p) 4069]).
Proof.
  intros [Hi Hc]. rewrite get_video_info_result in Hi.
  destruct (get_video_summary_prompt_stage w video_url video_lang mode
              copy_to_clipboard g video_info Hi Hc)
    as [before [fetching [after E]]].
  cbv zeta. rewrite E. unfold events at 1 3. cbn [snd].
  repeat split.
  - apply in_or_app. right. apply in_or_app. right. right. left. reflexivity.
  - apply in_or_app. right. apply in_or_app. right. right. right. left.
    reflexivity.
  - intros n p g0. rewrite fetch_gpt3_response_run. reflexivity.
  - intros p g0. rewrite fetch_gpt3_response_run. reflexivity.
Qed.

Lemma default_budget_demo :
  In (ChatCompletionsCreate chat_model
        (chat_messages
           (generate_standart_prompt (lit "Demo") (lit "Hi there General Kenobi")))
        4069)
     (events (get_video_summary demo_world demo_url (lit "en") (lit "standart")
                false initial_globals)).
Proof.
  assert (reaches_prompt_stage demo_world demo_url (lit "en") initial_globals
            demo_info) as H by (split; vm_compute; reflexivity).
  exact (proj1 (proj2 (summarizer_default_budget demo_world demo_url (lit "en")
                         (lit "standart") false initial_globals demo_info H))).
Defined.

Lemma subscript_raises (v : PyValue) (key e : str) :
  subscript v key = Raises e -> e = lit "KeyError" \/ e = lit "TypeError".
Proof.
  unfold subscript.
  destruct v; try (intros H; injection H as H; right; symmetry; exact H).
  destruct (dict_get key items); [discriminate |].
  intros H. injection H as H. left. symmetry. exact H.
Qed.

Lemma unresolved_outcome_cases (v : PyValue) :
  resolve v = None ->
  unresolved_outcome v = Returns None \/
  (truthy v = true /\
   (unresolved_outcome v = Raises (lit "KeyError") \/
    unresolved_outcome v = Raises (lit "TypeError"))).
Proof.
  unfold resolve, unresolved_outcome.
  destruct (truthy v); [| left; reflexivity].
  destruct (subscript v (lit "title")) as [t | e] eqn:Et.
  - destruct (subscript v (lit "id")) as [i | e] eqn:Ei; [discriminate |].
    intros _. right. split; [reflexivity |].
    destruct (subscript_raises _ _ _ Ei) as [H | H]; subst e; auto.
  - intros _. right. split; [reflexivity |].
    destruct (subscript_raises _ _ _ Et) as [H | H]; subst e; auto.
Qed.

(** C8 (as amended): a run that returns has one of two outcomes: [None], or
    a string, the stripped text of the completion, which may be empty and
    never holds the error text of [fetch_gpt3_response].  A run does not
    return only when a subscript of a truthy [video_info] raises or when
    [pyperclip.copy] raises. *)
Theorem summary_or_none {TM : TimeModel} (w : World)
    (video_url video_lang mode : str) (copy_to_clipboard : bool) (g : Globals) :
  let outcome :=
    result (get_video_summary w video_url video_lang mode copy_to_clipboard g) in
  outcome = Returns None \/
  (exists video_info content,
    reaches_prompt_stage w video_url video_lang g video_info /\
    chat_completions_create w chat_model
      (chat_messages (prompt_of_run w video_info video_lang mode))
      default_max_tokens = CompletionContent content /\
    contains (lit "Error fetching GPT-3 response") (strip content) = false /\
    outcome = Returns (Some (strip content))) \/
  ((outcome = Raises (lit "KeyError") \/ outcome = Raises (lit "TypeError")) /\
   truthy (result (get_video_info w video_url g)) = true /\
   resolve (result (get_video_info w video_url g)) = None) \/
  (outcome = Raises (lit "PyperclipException") /\
   copy_to_clipboard = true /\ CLIPBOARD_AVAILABLE w = true /\
   exists video_info content,
     reaches_prompt_stage w video_url video_lang g video_info /\
     chat_completions_create w chat_model
       (chat_messages (prompt_of_run w video_info video_lang mode))
       default_max_tokens = CompletionContent content /\
     pyperclip_copy w (strip content) = false).
Proof.
  cbv zeta. rewrite get_video_info_result.
  destruct (metadata w video_url) as [info |] eqn:Hm.
  - destruct (contains (lit "Error occurred") (captions_of_run w info video_lang))
      eqn:Hc.
    + destruct (get_video_summary_captions_flagged w video_url video_lang mode
                  copy_to_clipboard g info Hm Hc) as [? [? [? E]]].
      left. rewrite E. reflexivity.
    + destruct (get_video_summary_prompt_stage w video_url video_lang mode
                  copy_to_clipboard g info Hm Hc) as [? [? [? E]]].
      assert (reaches_prompt_stage w video_url video_lang g info) as Hreach
          by (split; [rewrite get_video_info_result; exact Hm | exact Hc]).
      rewrite E. unfold result. cbn [fst].
      unfold summary_outcome, response_text.
      destruct (chat_completions_create w chat_model
                  (chat_messages (prompt_of_run w info video_lang mode))
                  default_max_tokens) as [content | e] eqn:Hcc.
      * destruct (contains (lit "Error fetching GPT-3 response") (strip content))
          eqn:Hf; [left; reflexivity |].
        destruct (copy_raises w (strip content) copy_to_clipboard) eqn:Hr.
        -- right. right. right. unfold copy_raises in Hr.
           apply andb_true_iff in Hr. destruct Hr as [Hr Hp].
           apply andb_true_iff in Hr. destruct Hr as [Hcopy Hav].
           apply negb_true_iff in Hp.
           split; [reflexivity |]. split; [exact Hcopy |].
           split; [exact Hav |].
           exists info, content.
           split; [exact Hreach |]. split; [exact Hcc | exact Hp].
        -- right. left. exists info, content.
           split; [exact Hreach |]. split; [exact Hcc |].
           split; [exact Hf | reflexivity].
      * rewrite error_response_flagged. left. reflexivity.
  - destruct (get_video_summary_unresolved w video_url video_lang mode
                copy_to_clipboard g Hm) as [? E].
    rewrite E. unfold result. cbn [fst].
    destruct (unresolved_outcome_cases _ Hm) as [H | [Ht H]];
      [left; exact H |].
    right. right. left. split; [exact H |]. split; [exact Ht | exact Hm].
Qed.

(** C8 as stated fails: a blank completion makes a successful run return
    the empty string. *)
Lemma blank_summary_returned :
  let outcome :=
    result (get_video_summary blank_completion_world demo_url (lit "en")
              (lit "standart") false initial_globals) in
  outcome = Returns (Some []) /\
  ~ (outcome = Returns None \/ exists s, outcome = Returns (Some s) /\ s <> []).
Proof.
  assert (result (get_video_summary blank_completion_world demo_url (lit "en")
                    (lit "standart") false initial_globals) = Returns (Some []))
    as E by (vm_compute; reflexivity).
  cbv zeta. rewrite E. split; [reflexivity |].
  intros [H | [s [H Hs]]]; [discriminate H |].
  injection H as H. subst s. apply Hs. reflexivity.
Qed.

(** C9: a run that reaches the summarization stage and whose completion
    text holds "Error fetching GPT-3 response" returns [None], though the
    completion request raised nothing. *)
Theorem quoted_error_text_aborts {TM : TimeModel} (w : World)
    (video_url video_lang mode : str) (copy_to_clipboard : bool) (g : Globals)
    (video_info : VideoInfo) (content : str) :
  reaches_prompt_stage w video_url video_lang g video_info ->
  chat_completions_create w chat_model
    (chat_messages (prompt_of_run w video_info video_lang mode))
    default_max_tokens = CompletionContent content ->
  contains (lit "Error fetching GPT-3 response") content = true ->
  result (get_video_summary w video_url video_lang mode copy_to_clipboard g)
  = Returns None.
Proof.
  intros [Hi Hc] Hcc Hq. rewrite get_video_info_result in Hi.
  destruct (get_video_summary_prompt_stage w video_url video_lang mode
              copy_to_clipboard g video_info Hi Hc) as [? [? [? E]]].
  assert (contains (lit "Error fetching GPT-3 response") (strip content) = true)
    as Hs
    by exact (contains_strip 69%N (lit "rror fetching GPT-3 response") content
                eq_refl eq_refl Hq).
  rewrite E. unfold result. cbn [fst]. unfold summary_outcome, response_text.
  rewrite Hcc, Hs. reflexivity.
Qed.

Lemma quoted_error_demo :
  result (get_video_summary quoting_completion_world demo_url (lit "en")
            (lit "standart") false initial_globals) = Returns None.
Proof.
  assert (reaches_prompt_stage quoting_completion_world demo_url (lit "en")
            initial_globals demo_info) as H by (split; vm_compute; reflexivity).
  exact (quoted_error_text_aborts quoting_completion_world demo_url (lit "en")
           (lit "standart") false initial_globals demo_info
           (lit "The log line 'Error fetching GPT-3 response' marks a failed request.")
           H eq_refl eq_refl).
Defined.

(** C10: a run that gets past the metadata stage (the value returned by
    [get_video_info] is truthy and has a title) leaves the global [title]
    set to the title of the video, whatever the later stages do, also when
    one of them raises; the value is still there after a later run, in any
    world, that fails at its metadata stage. *)
Theorem title_global_overwritten {TM : TimeModel} (w : World)
    (video_url video_lang mode : str) (copy_to_clipboard : bool) (g : Globals)
    (resolved_title : PyValue) :
  truthy (result (get_video_info w video_url g)) = true ->
  subscript (result (get_video_info w video_url g)) (lit "title")
  = Returns resolved_title ->
  let g1 :=
    globals_after
      (get_video_summary w video_url video_lang mode copy_to_clipboard g) in
  title g1 = resolved_title /\
  forall (w2 : World) (url2 lang2 mode2 : str) (copy2 : bool),
    truthy (result (get_video_info w2 url2 g1)) = false ->
    title (globals_after (get_video_summary w2 url2 lang2 mode2 copy2 g1))
    = resolved_title.
Proof.
  intros Ht Htitle. rewrite get_video_info_result in Ht, Htitle. cbv zeta.
  assert (globals_after
            (get_video_summary w video_url video_lang mode copy_to_clipboard g)
          = {| title := resolved_title |}) as Hg.
  { destruct (metadata w video_url) as [info |] eqn:Hm.
    - destruct (resolve_some _ _ Hm) as [_ [Hinfo _]].
      rewrite Htitle in Hinfo. injection Hinfo as Hinfo. subst resolved_title.
      destruct (contains (lit "Error occurred")
                  (captions_of_run w info video_lang)) eqn:Hc.
      + destruct (get_video_summary_captions_flagged w video_url video_lang mode
                    copy_to_clipboard g info Hm Hc) as [? [? [? E]]].
        rewrite E. reflexivity.
      + destruct (get_video_summary_prompt_stage w video_url video_lang mode
                    copy_to_clipboard g info Hm Hc) as [? [? [? E]]].
        rewrite E. reflexivity.
    - destruct (get_video_summary_unresolved w video_url video_lang mode
                  copy_to_clipboard g Hm) as [? E].
      rewrite E. unfold globals_after, unresolved_globals. cbn [fst snd].
      rewrite Ht, Htitle. reflexivity. }
  rewrite Hg. split; [reflexivity |].
  intros w2 url2 lang2 mode2 copy2 H2.
  rewrite get_video_info_result in H2.
  destruct (get_video_summary_no_metadata w2 url2 lang2 mode2 copy2
              {| title := resolved_title |} H2) as [banner E].
  rewrite E. reflexivity.
Qed.

Lemma title_global_demo :
  title (globals_after
           (get_video_summary demo_world demo_url (lit "en") (lit "standart")
              false initial_globals))
  = PyStr (lit "Demo").
Proof.
  exact (proj1 (title_global_overwritten demo_world demo_url (lit "en")
                  (lit "standart") false initial_globals (PyStr (lit "Demo"))
                  eq_refl eq_refl)).
Defined.

(** ** More on the caption filter *)

Lemma select_from_one (i : Z) (a : str) :
  (i mod 3 = 0)%Z -> select_from i [a] = [].
Proof.
  intros Hi. unfold select_from. cbn [enumerate_from filter map fst snd].
  replace ((i - 1) mod 3 =? 0)%Z with false
    by (symmetry; apply Z.eqb_neq; rewrite Zminus_mod, Hi; discriminate).
  reflexivity.
Qed.

Lemma select_from_nth (k : nat) :
  forall (lines : list str) (i : Z), (i mod 3 = 0)%Z ->
  nth_error (select_from i lines) k = nth_error lines (3 * k + 1).
Proof.
  induction k as [| k IH]; intros lines i Hi.
  - destruct lines as [| a [| b [| c rest]]].
    + reflexivity.
    + rewrite (select_from_one _ _ Hi). reflexivity.
    + rewrite (enumerate_select_two _ _ _ Hi). reflexivity.
    + rewrite (enumerate_select_three _ _ _ _ _ Hi). reflexivity.
  - replace (3 * S k + 1) with (S (S (S (3 * k + 1)))) by lia.
    destruct lines as [| a [| b [| c rest]]].
    + reflexivity.
    + rewrite (select_from_one _ _ Hi). reflexivity.
    + rewrite (enumerate_select_two _ _ _ Hi). cbn [nth_error].
      destruct k; reflexivity.
    + rewrite (enumerate_select_three _ _ _ _ _ Hi). cbn [nth_error].
      apply IH.
      replace (i + 1 + 1 + 1)%Z with (i + 1 * 3)%Z by lia.
      rewrite Z_mod_plus_full. exact Hi.
Qed.

Lemma split_pieces_no_nl (s : str) :
  forallb (fun l => negb (has_nl l)) (split NL s) = true.
Proof.
  induction s as [| c s IH]; [reflexivity |].
  destruct (N.eqb_spec c NL) as [E | E].
  - subst c. rewrite split_cons_nl. cbn [forallb]. rewrite IH. reflexivity.
  - apply N.eqb_neq in E. rewrite (split_cons_other _ _ E).
    destruct (split NL s) as [| l ls]; cbn [forallb] in *.
    + rewrite has_nl_cons, E. reflexivity.
    + rewrite has_nl_cons, E. exact IH.
Qed.

Lemma select_from_forallb (P : str -> bool) (lines : list str) :
  forall i, forallb P lines = true -> forallb P (select_from i lines) = true.
Proof.
  induction lines as [| l ls IH]; intros i H; [reflexivity |].
  cbn [forallb] in H. apply andb_true_iff in H. destruct H as [Hl Hls].
  unfold select_from. cbn [enumerate_from filter fst].
  destruct ((i - 1) mod 3 =? 0)%Z.
  - cbn [List.map forallb snd]. rewrite Hl. apply (IH (i + 1)%Z Hls).
  - apply (IH (i + 1)%Z Hls).
Qed.

Lemma has_nl_join_space (ls : list str) :
  forallb (fun l => negb (has_nl l)) ls = true ->
  has_nl (join (lit " ") ls) = false.
Proof.
  induction ls as [| l ls IH]; intros H; [reflexivity |].
  cbn [forallb] in H. apply andb_true_iff in H. destruct H as [Hl Hls].
  apply negb_true_iff in Hl.
  destruct ls as [| l' ls']; [exact Hl |].
  rewrite join_cons2, !has_nl_app, Hl, (IH Hls). reflexivity.
Qed.

Lemma lstrip_all_spaces (s : str) : has_nonspace s = false -> lstrip s = [].
Proof.
  induction s as [| c s IH]; [reflexivity |].
  unfold has_nonspace. cbn [existsb lstrip]. intros H.
  apply orb_false_iff in H. destruct H as [Hc Hs].
  apply negb_false_iff in Hc. rewrite Hc. apply IH, Hs.
Qed.

Lemma has_nonspace_spaces (ws : str) :
  forallb isspace ws = true -> has_nonspace ws = false.
Proof.
  induction ws as [| c ws IH]; [reflexivity |].
  cbn [forallb]. intros H. apply andb_true_iff in H. destruct H as [Hc Hws].
  unfold has_nonspace. cbn [existsb]. rewrite Hc. apply IH, Hws.
Qed.

Lemma rstrip_spaces_app (y ws : str) :
  forallb isspace ws = true -> rstrip (y ++ ws) = rstrip y.
Proof.
  intros Hws. unfold rstrip. rewrite rev_app_distr.
  rewrite (lstrip_spaces_app _ _ (forallb_isspace_rev _ Hws)). reflexivity.
Qed.

Lemma strip_outer_spaces (before s after : str) :
  forallb isspace before = true -> forallb isspace after = true ->
  strip (before ++ s ++ after) = strip s.
Proof.
  intros Hb Ha. unfold strip. rewrite (lstrip_spaces_app _ _ Hb).
  destruct (has_nonspace s) eqn:Hs.
  - rewrite (lstrip_app _ _ Hs). apply rstrip_spaces_app, Ha.
  - rewrite (lstrip_all_spaces _ Hs).
    assert (has_nonspace (s ++ after) = false) as H.
    { unfold has_nonspace. rewrite existsb_app. fold (has_nonspace s).
      fold (has_nonspace after). rewrite Hs, (has_nonspace_spaces _ Ha).
      reflexivity. }
    rewrite (lstrip_all_spaces _ H). reflexivity.
Qed.

Lemma has_nl_rstrip (s : str) : has_nl s = false -> has_nl (rstrip s) = false.
Proof.
  intros H. apply has_nl_In. intros Hin. unfold rstrip in Hin.
  apply in_rev in Hin.
  assert (has_nl (rev s) = false) as Hr.
  { apply has_nl_In. intros Hx. apply in_rev in Hx.
    apply has_nl_In in H. contradiction. }
  apply has_nl_lstrip in Hr. apply has_nl_In in Hr. contradiction.
Qed.

(** X1: the fragments that [filter_captions] joins are the lines of the
    stripped text with the indices 1, 4, 7, ..., whatever the number of
    lines: the fragment number [k] is the line number [3 * k + 1]. *)
Theorem filter_captions_every_third_line (captions : str) :
  exists text_lines : list str,
    filter_captions captions = join (lit " ") text_lines /\
    forall k : nat,
      nth_error text_lines k
      = nth_error (split NL (strip captions)) (3 * k + 1).
Proof.
  exists (select_from 0 (split NL (strip captions))). split; [reflexivity |].
  intros k. apply select_from_nth. reflexivity.
Qed.

Lemma single_line_filtered_out (captions : str) :
  has_nl captions = false -> filter_captions captions = [].
Proof.
  intros H. unfold filter_captions.
  rewrite split_no_nl by (unfold strip; apply has_nl_rstrip, has_nl_lstrip, H).
  reflexivity.
Qed.

(** X2: a caption text that holds no line feed has no line of index 1, and
    [filter_captions] returns the empty string for it. *)
Theorem filter_captions_single_line (captions : str) :
  has_nl captions = false -> filter_captions captions = [].
Proof. apply single_line_filtered_out. Qed.

Lemma single_line_example :
  filter_captions (lit "just one line of text") = [].
Proof. exact (filter_captions_single_line (lit "just one line of text") eq_refl). Defined.

(** X3: whitespace around the caption text does not change what
    [filter_captions] returns. *)
Theorem filter_captions_outer_whitespace (before captions after : str) :
  forallb isspace before = true -> forallb isspace after = true ->
  filter_captions (before ++ captions ++ after) = filter_captions captions.
Proof.
  intros Hb Ha. unfold filter_captions.
  rewrite (strip_outer_spaces _ _ _ Hb Ha). reflexivity.
Qed.

Lemma outer_whitespace_example :
  filter_captions ([NL; SP] ++ (lit "0 --> 1" ++ [NL] ++ lit "Hello") ++ [SP; NL; NL])
  = filter_captions (lit "0 --> 1" ++ [NL] ++ lit "Hello").
Proof.
  exact (filter_captions_outer_whitespace [NL; SP]
           (lit "0 --> 1" ++ [NL] ++ lit "Hello") [SP; NL; NL] eq_refl eq_refl).
Defined.

(** X4: the text that [filter_captions] returns holds no line feed. *)
Theorem filter_captions_one_line (captions : str) :
  has_nl (filter_captions captions) = false.
Proof.
  unfold filter_captions. apply has_nl_join_space.
  apply (select_from_forallb _ _ 0%Z), split_pieces_no_nl.
Qed.

(** ** The text of [download_captions], line by line *)

Lemma render_blocks_lines (bs : list Block) :
  forallb (fun b => negb (has_nl (fst b)) && negb (has_nl (snd b))) bs = true ->
  split NL (render_blocks bs) = block_lines bs ++ [[]].
Proof.
  induction bs as [| b bs IH]; intros H; [reflexivity |].
  cbn [forallb] in H. apply andb_true_iff in H. destruct H as [Hb Hbs].
  apply andb_true_iff in Hb. destruct Hb as [Hf Hs].
  apply negb_true_iff in Hf. apply negb_true_iff in Hs.
  unfold render_blocks. cbn [List.map concat]. fold (render_blocks bs).
  rewrite <- !app_assoc. cbn [app].
  rewrite (split_app_nl _ _ Hf), (split_app_nl _ _ Hs), split_cons_nl, (IH Hbs).
  reflexivity.
Qed.

Lemma block_lines_length (bs : list Block) :
  length (block_lines bs) = 3 * length bs.
Proof.
  induction bs as [| b bs IH]; [reflexivity |].
  unfold block_lines in *. cbn [flat_map app length]. rewrite IH. lia.
Qed.

(** X5: the text that [download_captions] builds from a transcript has
    three lines per entry, in the order of the entries: the time line, the
    text with its line feeds replaced by spaces, and an empty line; an
    empty piece follows the last line feed. *)
Theorem download_captions_three_lines {TM : TimeModel} (w : World)
    (video_id : PyValue) (lang_code : str) (transcript : list Entry)
    (g : Globals) :
  get_transcript w video_id [lang_code] = TranscriptEntries transcript ->
  let lines := split NL (result (download_captions w video_id lang_code g)) in
  lines = block_lines (transcript_blocks transcript) ++ [[]] /\
  length lines = 3 * length transcript + 1.
Proof.
  intros Hw. cbv zeta. rewrite download_captions_run. unfold result. cbn [fst].
  unfold captions_text. rewrite Hw, srt_of_transcript_render.
  rewrite render_blocks_lines
    by apply well_formed_no_nl, transcript_blocks_well_formed.
  split; [reflexivity |].
  rewrite length_app, block_lines_length. unfold transcript_blocks.
  rewrite length_map. reflexivity.
Qed.

Lemma three_lines_demo :
  length (split NL (result (download_captions demo_world (PyStr (lit "abc123")) (lit "en")
                              initial_globals))) = 7.
Proof.
  exact (proj2 (download_captions_three_lines demo_world (PyStr (lit "abc123")) (lit "en")
                  demo_transcript initial_globals eq_refl)).
Defined.

(** ** The substring test across a fixed prefix and suffix *)

Lemma contains_skip_prefix (x : char) (p a s : str) :
  existsb (N.eqb x) a = false ->
  contains (x :: p) (a ++ s) = contains (x :: p) s.
Proof.
  induction a as [| c a IH]; intros H; [reflexivity |].
  cbn [existsb] in H. apply orb_false_iff in H. destruct H as [Hc Ha].
  cbn [app contains startswith]. rewrite Hc. cbn [andb orb]. apply IH, Ha.
Qed.

Lemma contains_rev_eq (p s : str) : contains p s = contains (rev p) (rev s).
Proof.
  destruct (contains p s) eqn:E.
  - symmetry. apply contains_rev, E.
  - destruct (contains (rev p) (rev s)) eqn:E'; [| reflexivity].
    apply contains_rev in E'. rewrite !rev_involutive in E'. congruence.
Qed.

Lemma existsb_rev (f : char -> bool) (l : str) :
  existsb f l = false -> existsb f (rev l) = false.
Proof.
  intros H. destruct (existsb f (rev l)) eqn:E; [| reflexivity].
  apply existsb_exists in E. destruct E as [x [Hin Hx]]. apply in_rev in Hin.
  assert (existsb f l = true) by (apply existsb_exists; exists x; auto).
  congruence.
Qed.

Lemma contains_skip_suffix (y : char) (q s b : str) :
  existsb (N.eqb y) b = false ->
  contains (q ++ [y]) (s ++ b) = contains (q ++ [y]) s.
Proof.
  intros H. rewrite (contains_rev_eq _ (s ++ b)), (contains_rev_eq _ s).
  rewrite !rev_app_distr. cbn [rev app].
  apply contains_skip_prefix, existsb_rev, H.
Qed.

Lemma error_text_flagged_iff (e : str) :
  contains (lit "Error occurred")
    (COLOR_RED ++ ICON_ERROR ++ lit " An error occurred: " ++ e ++ COLOR_RESET)
  = contains (lit "Error occurred") e.
Proof.
  rewrite !app_assoc. rewrite <- (app_assoc _ e).
  change (lit "Error occurred") with (69%N :: lit "rror occurred").
  rewrite contains_skip_prefix by reflexivity.
  change (69%N :: lit "rror occurred") with (lit "Error occurre" ++ [100%N]).
  apply contains_skip_suffix. reflexivity.
Qed.

(** X6: when the transcript request raises, the text that
    [download_captions] returns holds "Error occurred" exactly when the
    message of the exception does: the words that the function puts around
    the message never match. *)
Theorem caption_error_text_flagged_iff {TM : TimeModel} (w : World)
    (video_id : PyValue) (lang_code e : str) (g : Globals) :
  get_transcript w video_id [lang_code] = TranscriptException e ->
  contains (lit "Error occurred")
    (result (download_captions w video_id lang_code g))
  = contains (lit "Error occurred") e.
Proof.
  intros Hw. rewrite download_captions_run. unfold result. cbn [fst].
  unfold captions_text. rewrite Hw. apply error_text_flagged_iff.
Qed.

Lemma caption_error_text_demo :
  contains (lit "Error occurred")
    (result (download_captions no_captions_world (PyStr (lit "abc123")) (lit "en")
               initial_globals)) = false.
Proof.
  exact (caption_error_text_flagged_iff no_captions_world (PyStr (lit "abc123")) (lit "en")
           (lit "Subtitles are disabled for this video") initial_globals eq_refl).
Defined.

Lemma count_events_app (p : Event -> bool) (a b : list Event) :
  count_events p (a ++ b) = count_events p a + count_events p b.
Proof. unfold count_events. rewrite filter_app, length_app. reflexivity. Qed.

Lemma count_events_stdout (p : Event -> bool) (l : list str) :
  (forall s, p (Stdout s) = false) ->
  count_events p (List.map Stdout l) = 0.
Proof.
  intros H. unfold count_events. induction l as [| s l IH]; [reflexivity |].
  cbn [List.map List.filter]. rewrite H. exact IH.
Qed.

Lemma existsb_count (p : Event -> bool) (evs : list Event) :
  count_events p evs = 0 -> existsb p evs = false.
Proof.
  unfold count_events. induction evs as [| e evs IH]; [reflexivity |].
  cbn [List.filter existsb]. destruct (p e); [discriminate | exact IH].
Qed.

Lemma count_events_cons (p : Event -> bool) (e : Event) (evs : list Event) :
  count_events p (e :: evs) = (if p e then 1 else 0) + count_events p evs.
Proof. unfold count_events. cbn [List.filter]. destruct (p e); reflexivity. Qed.

Lemma count_events_nil (p : Event -> bool) : count_events p [] = 0.
Proof. reflexivity. Qed.

Section Counts.

Context {TM : TimeModel}.
Variable w : World.
Variable p : Event -> bool.
Hypothesis p_outward : outward p.

Lemma count_build_prompt (mode filtered_captions : str) (g : Globals) :
  count_events p (events (build_prompt w mode filtered_captions g)) = 0.
Proof.
  destruct p_outward as [Hs Hc]. rewrite build_prompt_run. unfold events.
  cbn [snd].
  destruct (str_eqb mode (lit "standart"));
    [| destruct (str_eqb mode (lit "bulletpoint"))];
    rewrite ?count_events_cons, ?Hs, ?Hc; reflexivity.
Qed.

Lemma count_get_video_info (url : str) (g : Globals) :
  count_events p (events (get_video_info w url g))
  = if p (SubprocessRun [lit "yt-dlp"; lit "--skip-download";
                         lit "--print-json"; url])
    then 1 else 0.
Proof.
  destruct p_outward as [Hs Hc].
  destruct (get_video_info_events w url g) as [diagnostics E]. rewrite E.
  rewrite !count_events_cons, Hc, (count_events_stdout _ _ Hs). lia.
Qed.

Lemma count_present (mode response : str) (copy_to_clipboard : bool)
    (g : Globals) :
  count_events p (events (present w mode response copy_to_clipboard g))
  = if copy_to_clipboard && CLIPBOARD_AVAILABLE w && pyperclip_copy w response
       && p (PyperclipCopy response)
    then 1 else 0.
Proof.
  destruct p_outward as [Hs Hc].
  destruct (present_run w mode response copy_to_clipboard)
    as [top [heading [bottom [copied [unavailable E]]]]].
  rewrite E. unfold events. cbn [snd].
  rewrite !count_events_cons, count_events_app, count_events_cons, !Hs.
  assert (count_events p
            (if str_eqb mode (lit "bulletpoint")
             then List.map Stdout (List.map (app (lit "  ")) (splitlines response))
             else [Stdout (response ++ [NL])]) = 0) as Hbody.
  { destruct (str_eqb mode (lit "bulletpoint")).
    - apply count_events_stdout, Hs.
    - rewrite count_events_cons, Hs. reflexivity. }
  rewrite Hbody.
  destruct copy_to_clipboard;
    [destruct (CLIPBOARD_AVAILABLE w); [destruct (pyperclip_copy w response) |] |];
    rewrite ?count_events_cons, ?Hs; cbn [andb count_events List.filter length];
    destruct (p (PyperclipCopy response)); reflexivity.
Qed.

(** How many events of an outward kind a run holds, stage by stage. *)
Lemma count_get_video_summary (video_url video_lang mode : str)
    (copy_to_clipboard : bool) (g : Globals) :
  let run := get_video_summary w video_url video_lang mode copy_to_clipboard g in
  let b (x : bool) := if x then 1 else 0 in
  count_events p (events run)
  = b (p (SubprocessRun [lit "yt-dlp"; lit "--skip-download";
                         lit "--print-json"; video_url]))
    + match metadata w video_url with
      | None => 0
      | Some video_info =>
          b (p (GetTranscript (vi_id video_info) [video_lang]))
          + if contains (lit "Error occurred")
                 (captions_of_run w video_info video_lang)
            then 0
            else
              let prompt := prompt_of_run w video_info video_lang mode in
              b (p (ChatCompletionsCreate chat_model (chat_messages prompt)
                      default_max_tokens))
              + match result run with
                | Returns (Some response) =>
                    b (copy_to_clipboard && CLIPBOARD_AVAILABLE w
                       && p (PyperclipCopy response))
                | _ => 0
                end
      end.
Proof.
  destruct p_outward as [Hs Hc]. cbv zeta.
  destruct (metadata w video_url) as [info |] eqn:Hm.
  - destruct (contains (lit "Error occurred") (captions_of_run w info video_lang))
      eqn:Hf.
    + destruct (get_video_summary_captions_flagged w video_url video_lang mode
                  copy_to_clipboard g info Hm Hf) as [? [? [? E]]].
      rewrite E. unfold events at 1. cbn [snd].
      rewrite count_events_cons, count_events_app, count_get_video_info,
        !count_events_cons, !Hs, !Hc, count_events_nil. lia.
    + destruct (get_video_summary_log w video_url video_lang mode
                  copy_to_clipboard g info Hm Hf) as [? [? [? [? [? E]]]]].
      destruct (get_video_summary_prompt_stage w video_url video_lang mode
                  copy_to_clipboard g info Hm Hf) as [? [? [? R]]].
      rewrite E. rewrite R. unfold result. cbn [fst].
      rewrite count_events_cons, !count_events_app, count_get_video_info,
        count_build_prompt, !count_events_cons, !Hs, !Hc, !count_events_nil.
      unfold summary_outcome.
      destruct (contains (lit "Error fetching GPT-3 response")
                  (response_text w (prompt_of_run w info video_lang mode)
                     default_max_tokens)).
      * rewrite !count_events_cons, !Hs, count_events_nil. lia.
      * rewrite count_present. unfold copy_raises.
        destruct copy_to_clipboard, (CLIPBOARD_AVAILABLE w),
          (pyperclip_copy w
             (response_text w (prompt_of_run w info video_lang mode)
                default_max_tokens));
          cbn [andb negb]; lia.
  - destruct (get_video_summary_unresolved w video_url video_lang mode
                copy_to_clipboard g Hm) as [? E].
    rewrite E. unfold events at 1. cbn [snd].
    rewrite count_events_cons, count_get_video_info, Hs. lia.
Qed.

End Counts.

Lemma outward_subprocess : outward is_subprocess.
Proof. split; reflexivity. Qed.

Lemma outward_transcript_request : outward is_transcript_request.
Proof. split; reflexivity. Qed.

Lemma outward_completion_request : outward is_completion_request.
Proof. split; reflexivity. Qed.

Lemma outward_clipboard : outward is_clipboard.
Proof. split; reflexivity. Qed.

Lemma outward_copies (s : str) : outward (copies s).
Proof. split; reflexivity. Qed.

Lemma in_copies (s : str) (evs : list Event) :
  In (PyperclipCopy s) evs <-> count_events (copies s) evs <> 0.
Proof.
  induction evs as [| e evs IH].
  - split; [intros [] | intros H; contradiction H; reflexivity].
  - rewrite count_events_cons. cbn [In]. rewrite IH. split.
    + intros [E | H]; [| lia]. subst e. cbn [copies].
      rewrite (proj2 (str_eqb_eq s s) eq_refl). lia.
    + intros H. destruct (copies s e) eqn:Ec; [| right; lia].
      left. destruct e; try discriminate Ec. cbn [copies] in Ec.
      apply str_eqb_eq in Ec. subst. reflexivity.
Qed.

Lemma called_app (f : Fn) (a b : list Event) :
  called f (a ++ b) = called f a || called f b.
Proof. unfold called. apply existsb_app. Qed.

(** ** What a run requests, and when it stops *)

(** X7: a run whose caption text holds "Error occurred" returns [None]
    after the caption stage: it calls neither the filter, nor a prompt
    builder, nor [fetch_gpt3_response], requests no completion and copies
    nothing.  The test reads the text, so a transcript that was fetched and
    says these words stops the run as well. *)
Theorem flagged_captions_abort {TM : TimeModel} (w : World)
    (video_url video_lang mode : str) (copy_to_clipboard : bool) (g : Globals)
    (video_info : VideoInfo) :
  resolve (result (get_video_info w video_url g)) = Some video_info ->
  contains (lit "Error occurred") (captions_of_run w video_info video_lang) = true ->
  let run := get_video_summary w video_url video_lang mode copy_to_clipboard g in
  result run = Returns None /\
  called Fn_filter_captions (events run) = false /\
  called Fn_generate_standart_prompt (events run) = false /\
  called Fn_generate_bulletpoint_prompt (events run) = false /\
  called Fn_fetch_gpt3_response (events run) = false /\
  count_events is_completion_request (events run) = 0 /\
  count_events is_clipboard (events run) = 0.
Proof.
  intros Hi Hf. rewrite get_video_info_result in Hi. cbv zeta.
  change (metadata w video_url = Some video_info) in Hi.
  rewrite (count_get_video_summary w _ outward_completion_request),
    (count_get_video_summary w _ outward_clipboard), Hi, Hf.
  destruct (get_video_summary_captions_flagged w video_url video_lang mode
              copy_to_clipboard g video_info Hi Hf) as [? [? [? E]]].
  rewrite E. unfold result, events. cbn [fst snd].
  rewrite !called_cons_stdout, !called_app.
  destruct (get_video_info_requests w video_url g) as [_ Hcall].
  unfold events in Hcall.
  rewrite !Hcall by discriminate.
  repeat split.
Qed.

Lemma flagged_captions_demo :
  result (get_video_summary misread_transcript_world demo_url (lit "en")
            (lit "standart") false initial_globals) = Returns None.
Proof.
  exact (proj1 (flagged_captions_abort misread_transcript_world demo_url (lit "en")
                  (lit "standart") false initial_globals demo_info
                  eq_refl eq_refl)).
Defined.

(** X8: when the completion request raises, whatever the message of the
    exception, a run that reached the summarization stage returns [None]
    and copies nothing to the clipboard; the request was made once. *)
Theorem completion_failure_aborts {TM : TimeModel} (w : World)
    (video_url video_lang mode : str) (copy_to_clipboard : bool) (g : Globals)
    (video_info : VideoInfo) (e : str) :
  reaches_prompt_stage w video_url video_lang g video_info ->
  chat_completions_create w chat_model
    (chat_messages (prompt_of_run w video_info video_lang mode))
    default_max_tokens = CompletionException e ->
  let run := get_video_summary w video_url video_lang mode copy_to_clipboard g in
  result run = Returns None /\
  count_events is_completion_request (events run) = 1 /\
  count_events is_clipboard (events run) = 0.
Proof.
  intros [Hi Hf] He. rewrite get_video_info_result in Hi. cbv zeta.
  change (metadata w video_url = Some video_info) in Hi.
  assert (result (get_video_summary w video_url video_lang mode
                    copy_to_clipboard g) = Returns None) as Hr.
  { destruct (get_video_summary_prompt_stage w video_url video_lang mode
                copy_to_clipboard g video_info Hi Hf) as [? [? [? E]]].
    rewrite E. unfold result. cbn [fst]. unfold summary_outcome, response_text.
    rewrite He, error_response_flagged. reflexivity. }
  rewrite (count_get_video_summary w _ outward_completion_request),
    (count_get_video_summary w _ outward_clipboard), Hi, Hf, Hr.
  repeat split.
Qed.

Lemma completion_failure_demo :
  result (get_video_summary failing_completion_world demo_url (lit "en")
            (lit "standart") true initial_globals) = Returns None.
Proof.
  assert (reaches_prompt_stage failing_completion_world demo_url (lit "en")
            initial_globals demo_info) as H by (split; vm_compute; reflexivity).
  exact (proj1 (completion_failure_aborts failing_completion_world demo_url
                  (lit "en") (lit "standart") true initial_globals demo_info
                  (lit "Connection error.") H eq_refl)).
Defined.

(** X9: a run copies a text to the clipboard exactly when the copy was
    asked for, [pyperclip] is installed and the run returns that text as
    its summary. *)
Theorem clipboard_receives_the_summary {TM : TimeModel} (w : World)
    (video_url video_lang mode : str) (copy_to_clipboard : bool) (g : Globals)
    (s : str) :
  let run := get_video_summary w video_url video_lang mode copy_to_clipboard g in
  In (PyperclipCopy s) (events run) <->
  copy_to_clipboard = true /\ CLIPBOARD_AVAILABLE w = true /\
  result run = Returns (Some s).
Proof.
  cbv zeta. rewrite in_copies, (count_get_video_summary w _ (outward_copies s)).
  cbn [copies].
  destruct (metadata w video_url) as [info |] eqn:Hm.
  - destruct (contains (lit "Error occurred") (captions_of_run w info video_lang))
      eqn:Hf.
    + destruct (get_video_summary_captions_flagged w video_url video_lang mode
                  copy_to_clipboard g info Hm Hf) as [? [? [? E]]].
      rewrite E. unfold result. cbn [fst].
      split; [intros H; contradiction H; reflexivity | intros [_ [_ H]]; discriminate H].
    + destruct (result (get_video_summary w video_url video_lang mode
                          copy_to_clipboard g)) as [[r |] | e].
      * destruct copy_to_clipboard, (CLIPBOARD_AVAILABLE w); cbn [andb];
          try (split; [intros H; contradiction H; reflexivity
                      | intros [H1 [H2 _]]; discriminate]).
        destruct (str_eqb r s) eqn:Er.
        -- apply str_eqb_eq in Er. subst r.
           split; [intros _; repeat split | intros _; discriminate].
        -- split; [intros H; contradiction H; reflexivity |].
           intros [_ [_ H]]. injection H as H. subst r.
           rewrite (proj2 (str_eqb_eq s s) eq_refl) in Er. discriminate Er.
      * split; [intros H; contradiction H; reflexivity
               | intros [_ [_ H]]; discriminate H].
      * split; [intros H; contradiction H; reflexivity
               | intros [_ [_ H]]; discriminate H].
  - destruct (get_video_summary_unresolved w video_url video_lang mode
                copy_to_clipboard g Hm) as [? E].
    rewrite E. unfold result. cbn [fst].
    split; [intros H; contradiction H; reflexivity |].
    intros [_ [_ H]].
    destruct (unresolved_outcome_cases _ Hm) as [H' | [_ [H' | H']]];
      rewrite H' in H; discriminate H.
Qed.

(** The scenario of the specification with the copy asked for and
    [pyperclip] installed. *)
Lemma clipboard_demo :
  In (PyperclipCopy demo_summary)
     (events (get_video_summary clipboard_world demo_url (lit "en")
                (lit "standart") true initial_globals)).
Proof.
  apply (proj2 (clipboard_receives_the_summary clipboard_world demo_url (lit "en")
                  (lit "standart") true initial_globals demo_summary)).
  repeat split.
Defined.

(** X10: no stage is tried twice: a run starts the [yt-dlp] subprocess
    once, requests the transcript once if the metadata was resolved and not
    at all otherwise, and requests at most one completion and makes at most
    one clipboard copy. *)
Theorem no_stage_is_retried {TM : TimeModel} (w : World)
    (video_url video_lang mode : str) (copy_to_clipboard : bool) (g : Globals) :
  let run := get_video_summary w video_url video_lang mode copy_to_clipboard g in
  count_events is_subprocess (events run) = 1 /\
  count_events is_transcript_request (events run)
  = match resolve (result (get_video_info w video_url g)) with
    | Some _ => 1
    | None => 0
    end /\
  count_events is_completion_request (events run) <= 1 /\
  count_events is_clipboard (events run) <= 1.
Proof.
  cbv zeta.
  rewrite (count_get_video_summary w _ outward_subprocess),
    (count_get_video_summary w _ outward_transcript_request),
    (count_get_video_summary w _ outward_completion_request),
    (count_get_video_summary w _ outward_clipboard), get_video_info_result.
  cbn [is_subprocess is_transcript_request is_completion_request is_clipboard].
  change (resolve (video_info_value w video_url)) with (metadata w video_url).
  destruct (metadata w video_url) as [info |]; [| repeat split; lia].
  destruct (contains (lit "Error occurred") (captions_of_run w info video_lang));
    [repeat split; lia |].
  destruct (result (get_video_summary w video_url video_lang mode
                      copy_to_clipboard g)) as [[r |] | e];
    [| repeat split; lia | repeat split; lia].
  destruct copy_to_clipboard, (CLIPBOARD_AVAILABLE w); cbn [andb];
    repeat split; lia.
Qed.

(** ** The summary that a run returns *)

Lemma lstrip_starts_nonspace (s : str) :
  lstrip s = [] \/ starts_nonspace (lstrip s) = true.
Proof.
  induction s as [| c s IH]; [left; reflexivity |].
  cbn [lstrip]. destruct (isspace c) eqn:Hc; [exact IH |].
  right. cbn [starts_nonspace]. rewrite Hc. reflexivity.
Qed.

Lemma lstrip_suffix (s : str) : exists ws, s = ws ++ lstrip s.
Proof.
  induction s as [| c s [ws IH]]; [exists []; reflexivity |].
  cbn [lstrip]. destruct (isspace c); [| exists []; reflexivity].
  exists (c :: ws). cbn [app]. rewrite <- IH. reflexivity.
Qed.

Lemma rstrip_prefix (s : str) : exists ws, s = rstrip s ++ ws.
Proof.
  unfold rstrip. destruct (lstrip_suffix (rev s)) as [ws E].
  exists (rev ws). rewrite <- rev_app_distr, <- E, rev_involutive. reflexivity.
Qed.

Lemma rstrip_ends_nonspace (s : str) :
  rstrip s = [] \/ ends_nonspace (rstrip s) = true.
Proof.
  unfold rstrip. destruct (lstrip_starts_nonspace (rev s)) as [E | H].
  - left. rewrite E. reflexivity.
  - right. destruct (lstrip (rev s)) as [| c l]; [discriminate H |].
    cbn [starts_nonspace] in H. cbn [rev]. apply ends_nonspace_app. exact H.
Qed.

Lemma strip_trimmed (s : str) :
  strip s = [] \/
  (starts_nonspace (strip s) = true /\ ends_nonspace (strip s) = true).
Proof.
  unfold strip. destruct (rstrip_ends_nonspace (lstrip s)) as [E | He];
    [left; exact E | right]. split; [| exact He].
  destruct (rstrip_prefix (lstrip s)) as [ws E].
  destruct (rstrip (lstrip s)) as [| c r]; [discriminate He |].
  destruct (lstrip_starts_nonspace s) as [E0 | Hs].
  - rewrite E0 in E. discriminate E.
  - rewrite E in Hs. exact Hs.
Qed.

(** X11: a summary that a run returns is empty or starts and ends with
    characters that are not whitespace. *)
Theorem summary_is_trimmed {TM : TimeModel} (w : World)
    (video_url video_lang mode : str) (copy_to_clipboard : bool) (g : Globals)
    (summary : str) :
  result (get_video_summary w video_url video_lang mode copy_to_clipboard g)
  = Returns (Some summary) ->
  summary = [] \/
  (starts_nonspace summary = true /\ ends_nonspace summary = true).
Proof.
  destruct (metadata w video_url) as [info |] eqn:Hm.
  - destruct (contains (lit "Error occurred") (captions_of_run w info video_lang))
      eqn:Hf.
    + destruct (get_video_summary_captions_flagged w video_url video_lang mode
                  copy_to_clipboard g info Hm Hf) as [? [? [? E]]].
      rewrite E. discriminate.
    + destruct (get_video_summary_prompt_stage w video_url video_lang mode
                  copy_to_clipboard g info Hm Hf) as [? [? [? E]]].
      rewrite E. unfold result. cbn [fst]. unfold summary_outcome, response_text.
      destruct (chat_completions_create w chat_model
                  (chat_messages (prompt_of_run w info video_lang mode))
                  default_max_tokens) as [content | e].
      * destruct (contains (lit "Error fetching GPT-3 response") (strip content));
          [discriminate |].
        destruct (copy_raises w (strip content) copy_to_clipboard);
          [discriminate |].
        intros H. injection H as H. subst summary. apply strip_trimmed.
      * rewrite error_response_flagged. discriminate.
  - destruct (get_video_summary_unresolved w video_url video_lang mode
                copy_to_clipboard g Hm) as [? E].
    rewrite E. unfold result. cbn [fst]. intros H.
    destruct (unresolved_outcome_cases _ Hm) as [H' | [_ [H' | H']]];
      rewrite H' in H; discriminate H.
Qed.

Lemma trimmed_summary_demo :
  demo_summary = [] \/
  (starts_nonspace demo_summary = true /\ ends_nonspace demo_summary = true).
Proof.
  exact (summary_is_trimmed demo_world demo_url (lit "en") (lit "standart") false
           initial_globals demo_summary eq_refl).
Defined.

(** ** The prompts *)

Lemma contains_app_head (p b : str) : contains p (p ++ b) = true.
Proof. apply contains_spec. exists [], b. reflexivity. Qed.

Lemma contains_app_r (p a s : str) :
  contains p s = true -> contains p (a ++ s) = true.
Proof.
  rewrite !contains_spec. intros [u [v E]]. exists (a ++ u), v.
  rewrite E, <- app_assoc. reflexivity.
Qed.

(** X12: for the same title and transcript the two prompts differ, and each
    holds the title and the transcript as they are. *)
Theorem prompts_embed_their_inputs (video_title filtered_captions : str) :
  generate_standart_prompt video_title filtered_captions
  <> generate_bulletpoint_prompt video_title filtered_captions /\
  contains video_title
    (generate_standart_prompt video_title filtered_captions) = true /\
  contains filtered_captions
    (generate_standart_prompt video_title filtered_captions) = true /\
  contains video_title
    (generate_bulletpoint_prompt video_title filtered_captions) = true /\
  contains filtered_captions
    (generate_bulletpoint_prompt video_title filtered_captions) = true.
Proof.
  split.
  - intros H. apply (f_equal (fun s => nth 47 s 0%N)) in H.
    vm_compute in H. discriminate H.
  - unfold generate_standart_prompt, generate_bulletpoint_prompt.
    repeat split;
      repeat first [apply contains_app_head | apply contains_app_r].
Qed.

(** X13: in a run whose transcript is fetched, ends in a character that is
    not whitespace and is not taken for an error, the completion is
    requested for the prompt of the mode built from the title of the video
    and the texts of the segments, line feeds replaced by spaces, joined by
    single spaces. *)
Theorem prompt_carries_the_transcript {TM : TimeModel} (w : World)
    (video_url video_lang mode : str) (copy_to_clipboard : bool) (g : Globals)
    (video_info : VideoInfo) (transcript : list Entry) :
  reaches_prompt_stage w video_url video_lang g video_info ->
  get_transcript w (vi_id video_info) [video_lang] = TranscriptEntries transcript ->
  last_text_ends_nonspace (transcript_blocks transcript) = true ->
  In (ChatCompletionsCreate chat_model
        (chat_messages
           (selected_prompt mode (format_value (py_repr w) (vi_title video_info))
              (join (lit " ") (segment_texts transcript))))
        default_max_tokens)
     (events (get_video_summary w video_url video_lang mode copy_to_clipboard g)).
Proof.
  intros [Hi Hf] Ht Hlast. rewrite get_video_info_result in Hi.
  destruct (get_video_summary_prompt_stage w video_url video_lang mode
              copy_to_clipboard g video_info Hi Hf) as [? [? [? E]]].
  rewrite E. unfold events at 1. cbn [snd].
  rewrite prompt_of_run_selected, captions_of_run_text.
  unfold captions_text. rewrite Ht, (filter_captions_srt _ Hlast).
  apply in_or_app. right. apply in_or_app. right.
  right. right. left. reflexivity.
Qed.

Lemma transcript_in_prompt_demo :
  In (ChatCompletionsCreate chat_model
        (chat_messages
           (generate_bulletpoint_prompt (lit "Demo") (lit "Hi there General Kenobi")))
        4069)
     (events (get_video_summary demo_world demo_url (lit "en") (lit "bulletpoint")
                false initial_globals)).
Proof.
  assert (reaches_prompt_stage demo_world demo_url (lit "en") initial_globals
            demo_info) as H by (split; vm_compute; reflexivity).
  exact (prompt_carries_the_transcript demo_world demo_url (lit "en")
           (lit "bulletpoint") false initial_globals demo_info demo_transcript
           H eq_refl eq_refl).
Defined.

(** ** Failures and what is printed for them *)

(** X14: a run that returns [None] has printed a line that starts with the
    red colour code and the error icon, unless [yt-dlp] ran and printed a
    JSON value that is falsy: then the run stops without a diagnostic. *)
Theorem failures_are_reported {TM : TimeModel} (w : World)
    (video_url video_lang mode : str) (copy_to_clipboard : bool) (g : Globals) :
  result (get_video_summary w video_url video_lang mode copy_to_clipboard g)
  = Returns None ->
  (exists msg,
      In (Stdout (COLOR_RED ++ ICON_ERROR ++ msg))
         (events (get_video_summary w video_url video_lang mode
                    copy_to_clipboard g))) \/
  (exists v, yt_dlp w video_url = YtJson v /\ truthy v = false).
Proof.
  intros Hr. destruct (metadata w video_url) as [info |] eqn:Hm.
  - left.
    destruct (contains (lit "Error occurred") (captions_of_run w info video_lang))
      eqn:Hf.
    + eexists. apply (caption_failure_line w _ _ _ _ _ info Hm Hf).
    + destruct (get_video_summary_prompt_stage w video_url video_lang mode
                  copy_to_clipboard g info Hm Hf) as [? [? [? E]]].
      rewrite E in Hr. unfold result in Hr. cbn [fst] in Hr.
      unfold summary_outcome in Hr.
      destruct (contains (lit "Error fetching GPT-3 response")
                  (response_text w (prompt_of_run w info video_lang mode)
                     default_max_tokens)) eqn:Hq.
      * eexists. apply (completion_failure_line w _ _ _ _ _ info Hm Hf Hq).
      * destruct (copy_raises w _ copy_to_clipboard); discriminate Hr.
  - destruct (get_video_summary_unresolved w video_url video_lang mode
                copy_to_clipboard g Hm) as [banner E].
    destruct (yt_dlp w video_url) as [v | | |] eqn:Hy.
    + right. exists v. split; [reflexivity |].
      rewrite E in Hr. unfold result in Hr. cbn [fst] in Hr.
      unfold metadata, video_info_value in Hm. unfold video_info_value in Hr.
      rewrite Hy in Hr, Hm.
      unfold unresolved_outcome in Hr. unfold resolve in Hm.
      destruct (truthy v); [| reflexivity].
      destruct (subscript v (lit "title")); [| discriminate Hr].
      destruct (subscript v (lit "id")); [discriminate Hm | discriminate Hr].
    + left.
      destruct (metadata_failure_line w video_url g) as [msg Hin];
        [intros v; rewrite Hy; discriminate |].
      exists msg. rewrite E. unfold events at 1. cbn [snd]. right. exact Hin.
    + left.
      destruct (metadata_failure_line w video_url g) as [msg Hin];
        [intros v; rewrite Hy; discriminate |].
      exists msg. rewrite E. unfold events at 1. cbn [snd]. right. exact Hin.
    + left.
      destruct (metadata_failure_line w video_url g) as [msg Hin];
        [intros v; rewrite Hy; discriminate |].
      exists msg. rewrite E. unfold events at 1. cbn [snd]. right. exact Hin.
Qed.

Lemma reported_failure_demo :
  (exists msg,
      In (Stdout (COLOR_RED ++ ICON_ERROR ++ msg))
         (events (get_video_summary no_metadata_world demo_url (lit "en")
                    (lit "standart") false initial_globals))) \/
  (exists v, yt_dlp no_metadata_world demo_url = YtJson v /\ truthy v = false).
Proof.
  exact (failures_are_reported no_metadata_world demo_url (lit "en")
           (lit "standart") false initial_globals eq_refl).
Defined.

Lemma has_nl_error_text (e : str) :
  has_nl e = false ->
  has_nl (COLOR_RED ++ ICON_ERROR ++ lit " An error occurred: " ++ e
          ++ COLOR_RESET) = false.
Proof. intros H. rewrite !has_nl_app, H. reflexivity. Qed.

(** X15: when the transcript request raises with a message that does not
    hold "Error occurred", the run is not stopped at the caption stage: it
    requests one completion; if the message holds no line feed, the prompt
    of that request is built from an empty transcript. *)
Theorem unflagged_caption_failure_goes_on {TM : TimeModel} (w : World)
    (video_url video_lang mode : str) (copy_to_clipboard : bool) (g : Globals)
    (video_info : VideoInfo) (e : str) :
  resolve (result (get_video_info w video_url g)) = Some video_info ->
  get_transcript w (vi_id video_info) [video_lang] = TranscriptException e ->
  contains (lit "Error occurred") e = false ->
  let evs :=
    events (get_video_summary w video_url video_lang mode copy_to_clipboard g) in
  count_events is_completion_request evs = 1 /\
  (has_nl e = false ->
   In (ChatCompletionsCreate chat_model
         (chat_messages
            (selected_prompt mode (format_value (py_repr w) (vi_title video_info))
               []))
         default_max_tokens) evs).
Proof.
  intros Hi Ht He. rewrite get_video_info_result in Hi. cbv zeta.
  change (metadata w video_url = Some video_info) in Hi.
  assert (captions_of_run w video_info video_lang
          = COLOR_RED ++ ICON_ERROR ++ lit " An error occurred: " ++ e
            ++ COLOR_RESET) as Hc
      by (rewrite captions_of_run_text; unfold captions_text; rewrite Ht;
          reflexivity).
  assert (contains (lit "Error occurred") (captions_of_run w video_info video_lang)
          = false) as Hf by (rewrite Hc, error_text_flagged_iff; exact He).
  split.
  - rewrite (count_get_video_summary w _ outward_completion_request), Hi, Hf.
    cbn [is_completion_request].
    destruct (result (get_video_summary w video_url video_lang mode
                        copy_to_clipboard g)) as [[r |] | e'];
      rewrite ?andb_false_r; reflexivity.
  - intros Hn.
    destruct (get_video_summary_prompt_stage w video_url video_lang mode
                copy_to_clipboard g video_info Hi Hf) as [? [? [? E]]].
    rewrite E. unfold events at 1. cbn [snd].
    rewrite prompt_of_run_selected, Hc.
    rewrite (single_line_filtered_out _ (has_nl_error_text _ Hn)).
    apply in_or_app. right. apply in_or_app. right.
    right. right. left. reflexivity.
Qed.

Lemma unflagged_caption_failure_demo :
  count_events is_completion_request
    (events (get_video_summary no_captions_world demo_url (lit "en")
               (lit "standart") false initial_globals)) = 1.
Proof.
  exact (proj1 (unflagged_caption_failure_goes_on no_captions_world demo_url
                  (lit "en") (lit "standart") false initial_globals demo_info
                  (lit "Subtitles are disabled for this video")
                  eq_refl eq_refl eq_refl)).
Defined.

(** X16: [get_video_info] starts [yt-dlp] once, with [--skip-download] and
    [--print-json] before the URL, and leaves the globals as they are.  When
    [yt-dlp] succeeds and its output is parsed, the function returns the
    parsed value, whatever it is, and prints nothing; in every other case
    it returns [None] after printing at least one diagnostic. *)
Theorem get_video_info_reports {TM : TimeModel} (w : World) (url : str)
    (g : Globals) :
  exists diagnostics,
    events (get_video_info w url g)
    = Call Fn_get_video_info [PyStr url]
      :: SubprocessRun [lit "yt-dlp"; lit "--skip-download"; lit "--print-json"; url]
      :: List.map Stdout diagnostics /\
    globals_after (get_video_info w url g) = g /\
    match yt_dlp w url with
    | YtJson video_info =>
        result (get_video_info w url g) = video_info /\ diagnostics = []
    | _ => result (get_video_info w url g) = PyNone /\ diagnostics <> []
    end.
Proof.
  unfold get_video_info, bind, emit, print, ret, events, globals_after, result.
  destruct (yt_dlp w url);
    [exists [] | eexists [_; _] | eexists [_; _] | eexists [_]];
    cbn [fst snd app List.map];
    (split; [reflexivity | split; [reflexivity |]]);
    (split; [reflexivity | first [reflexivity | discriminate]]).
Qed.

(** X17: a run that returns a summary has printed it: in mode
    "bulletpoint" every line of the summary, after two spaces; in any other
    mode the summary followed by a line feed. *)
Theorem summary_is_printed {TM : TimeModel} (w : World)
    (video_url video_lang mode : str) (copy_to_clipboard : bool) (g : Globals)
    (summary : str) :
  result (get_video_summary w video_url video_lang mode copy_to_clipboard g)
  = Returns (Some summary) ->
  let evs :=
    events (get_video_summary w video_url video_lang mode copy_to_clipboard g) in
  if str_eqb mode (lit "bulletpoint")
  then forall line, In line (splitlines summary) ->
                    In (Stdout (lit "  " ++ line)) evs
  else In (Stdout (summary ++ [NL])) evs.
Proof.
  intros Hr. cbv zeta.
  destruct (metadata w video_url) as [info |] eqn:Hm.
  - destruct (contains (lit "Error occurred") (captions_of_run w info video_lang))
      eqn:Hf.
    + destruct (get_video_summary_captions_flagged w video_url video_lang mode
                  copy_to_clipboard g info Hm Hf) as [? [? [? E]]].
      rewrite E in Hr. discriminate Hr.
    + destruct (get_video_summary_prompt_stage w video_url video_lang mode
                  copy_to_clipboard g info Hm Hf) as [? [? [? E]]].
      destruct (get_video_summary_log w video_url video_lang mode
                  copy_to_clipboard g info Hm Hf) as [? [? [? [? [? L]]]]].
      rewrite E in Hr. unfold result in Hr. cbn [fst] in Hr.
      rewrite L. unfold summary_outcome in Hr.
      destruct (contains (lit "Error fetching GPT-3 response")
                  (response_text w (prompt_of_run w info video_lang mode)
                     default_max_tokens)); [discriminate Hr |].
      destruct (copy_raises w _ copy_to_clipboard); [discriminate Hr |].
      injection Hr as Hr. rewrite Hr.
      destruct (present_run w mode summary copy_to_clipboard)
        as [top [heading [bottom [copied [unavailable P]]]]].
      rewrite P. unfold events at 3. cbn [snd].
      destruct (str_eqb mode (lit "bulletpoint")).
      * intros line Hl. right. apply in_or_app. right. apply in_or_app. right.
        apply in_or_app. right. apply in_or_app. right.
        right. right. apply in_or_app. left.
        apply in_map. apply (in_map (app (lit "  "))). exact Hl.
      * right. apply in_or_app. right. apply in_or_app. right.
        apply in_or_app. right. apply in_or_app. right.
        right. right. left. reflexivity.
  - destruct (get_video_summary_unresolved w video_url video_lang mode
                copy_to_clipboard g Hm) as [? E].
    rewrite E in Hr. unfold result in Hr. cbn [fst] in Hr.
    destruct (unresolved_outcome_cases _ Hm) as [H' | [_ [H' | H']]];
      rewrite H' in Hr; discriminate Hr.
Qed.

Lemma printed_summary_demo :
  In (Stdout (demo_summary ++ [NL]))
     (events (get_video_summary demo_world demo_url (lit "en") (lit "standart")
                false initial_globals)).
Proof.
  exact (summary_is_printed demo_world demo_url (lit "en") (lit "standart") false
           initial_globals demo_summary eq_refl).
Defined.

(** ** Runs that end in an exception *)



(** X19: when the copy is asked for, [pyperclip] is installed and
    [pyperclip.copy] raises, a run that fetched a summary raises
    [PyperclipException] instead of returning it: the completion was
    requested once, nothing was copied, and the global [title] stays set. *)
Theorem clipboard_failure_raises {TM : TimeModel} (w : World)
    (video_url video_lang mode : str) (g : Globals) (video_info : VideoInfo)
    (content : str) :
  reaches_prompt_stage w video_url video_lang g video_info ->
  chat_completions_create w chat_model
    (chat_messages (prompt_of_run w video_info video_lang mode))
    default_max_tokens = CompletionContent content ->
  contains (lit "Error fetching GPT-3 response") (strip content) = false ->
  CLIPBOARD_AVAILABLE w = true ->
  pyperclip_copy w (strip content) = false ->
  let run := get_video_summary w video_url video_lang mode true g in
  result run = Raises (lit "PyperclipException") /\
  count_events is_completion_request (events run) = 1 /\
  count_events is_clipboard (events run) = 0 /\
  title (globals_after run) = vi_title video_info.
Proof.
  intros [Hi Hf] Hcc Hq Hav Hp. rewrite get_video_info_result in Hi. cbv zeta.
  change (metadata w video_url = Some video_info) in Hi.
  destruct (get_video_summary_prompt_stage w video_url video_lang mode
              true g video_info Hi Hf) as [? [? [? E]]].
  assert (result (get_video_summary w video_url video_lang mode true g)
          = Raises (lit "PyperclipException")) as Hr.
  { rewrite E. unfold result. cbn [fst].
    unfold summary_outcome, response_text, copy_raises.
    rewrite Hcc, Hq, Hav, Hp. reflexivity. }
  rewrite (count_get_video_summary w _ outward_completion_request),
    (count_get_video_summary w _ outward_clipboard), Hi, Hf, Hr.
  split; [reflexivity | split; [reflexivity | split; [reflexivity |]]].
  rewrite E. reflexivity.
Qed.

Lemma clipboard_failure_demo :
  result (get_video_summary headless_world demo_url (lit "en") (lit "standart")
            true initial_globals) = Raises (lit "PyperclipException").
Proof.
  assert (reaches_prompt_stage headless_world demo_url (lit "en") initial_globals
            demo_info) as H by (split; vm_compute; reflexivity).
  exact (proj1 (clipboard_failure_raises headless_world demo_url (lit "en")
                  (lit "standart") initial_globals demo_info demo_summary
                  H eq_refl eq_refl eq_refl eq_refl)).
Defined.
